(** * DebuggerClientModule (firebug/remoting/debuggerClientModule.js)

    A shallow embedding of Firebug's remote-debugging connection manager:
    connection setup, the listTabs / attachTab / attachThread sequence with
    its response callbacks, the reload-survival round trip of
    [initContext] / [destroyContext], [getActorId] and the packet-tracing
    hook.

    The module is callback driven.  Every JavaScript function and every
    closure it hands to the protocol client is one definition here; what a
    call does to the outside (a trace message, an event fanned out to the
    listeners, a call on the protocol client or on the transport) is
    recorded, in program order, in a list of [event]s. *)

From stdpp Require Import base gmap strings list.

Local Open Scope string_scope.

(** ** JavaScript values *)

Definition loc := positive.

(** The values that reach the fields this module reads: an absent property,
    [null], a string (actor identifiers are strings) and a reference to an
    object (client handles, grips).  Referenced objects are plain property
    bags: no array and no object with a [toString] or [valueOf] of its own
    is a [value]. *)
Inductive value : Type :=
| VUndef
| VNull
| VStr (s : string)
| VRef (l : loc).

#[global] Instance value_eq_dec : EqDecision value.
Proof. solve_decision. Defined.

(** [ToBoolean]. *)
Definition truthy (v : value) : bool :=
  match v with
  | VUndef | VNull => false
  | VStr s => negb (String.eqb s "")
  | VRef _ => true
  end.

(** [ToString], as string concatenation applies it. *)
Definition ToString (v : value) : string :=
  match v with
  | VUndef => "undefined"
  | VNull => "null"
  | VStr s => s
  | VRef _ => "[object Object]"
  end.

(** The [==] operator.  [undefined] and [null] equal each other and nothing
    else; strings compare by content, objects by identity; an object
    compared with a string is first converted with [ToString]. *)
Definition loose_eq (a b : value) : bool :=
  match a, b with
  | (VUndef | VNull), (VUndef | VNull) => true
  | VStr s, VStr t => String.eqb s t
  | VRef l, VRef k => Pos.eqb l k
  | VStr s, VRef l => String.eqb s (ToString (VRef l))
  | VRef l, VStr s => String.eqb (ToString (VRef l)) s
  | _, _ => false
  end.

(** Reading an own property of a property bag: an absent name reads as
    [undefined].  (Members inherited from [Object.prototype] are not
    modelled.) *)
Definition get_prop (o : gmap string value) (k : string) : value :=
  default VUndef (o !! k).

(** ** Exceptions, events and the effect monad *)

Inductive exn : Type :=
| ReferenceError (name : string)   (* an identifier that resolves nowhere *)
| TypeError (what : string).       (* a property access or call on a non-object *)

Inductive result (A : Type) : Type :=
| Ok (a : A)
| Throw (e : exn).
Arguments Ok {A} a.
Arguments Throw {A} e.

(** The protocol client object ([DebuggerClient] of dbg-client.jsm). *)
Record DebuggerClient : Type := { _connected : bool }.

(** An argument handed to the listeners by [dispatch]. *)
Inductive arg : Type :=
| AContext                                  (* the [context] object *)
| ABool (b : bool)
| AClient (c : option DebuggerClient)       (* [this.client]; [None] is null *)
| AValue (v : value).

Inductive event : Type :=
(* tracing *)
| FBTrace_sysout (msg : string)
| TraceError_sysout (msg : string)
| TraceConn_sysout (label : string) (packet : gmap string value)
(* Firebug.Module.dispatch: fan-out to the registered listeners *)
| Dispatch (eventName : string) (args : list arg)
(* calls on the protocol client *)
| client_listTabs
| client_attachTab (tabActor : value)
| client_attachThread (threadActor : value)
| client_addListener (name : string)
| client_removeListener (name : string)
| client_connect
| client_close
| client_onPacket (packet : gmap string value)
| client_onClosed (status : value)
(* other collaborators *)
| threadClient_resume (threadClient : value)
| transport_send (packet : gmap string value)
| DebuggerServer_init
| DebuggerServer_addBrowserActors
| DebuggerServer_connectPipe
| debuggerSocketConnect (host : string) (port : N)
| new_DebuggerClient.

(** A computation over a mutable object of type [S]: its completion (normal
    or abrupt), the object afterwards, and the events it produced.  An
    abrupt completion keeps the state and the events reached so far. *)
Definition M (S A : Type) : Type := S -> result A * S * list event.

Definition ret {S A} (a : A) : M S A := fun s => (Ok a, s, []).

Definition bind {S A B} (m : M S A) (f : A -> M S B) : M S B :=
  fun s =>
    match m s with
    | (Ok a, s1, t1) => let '(r, s2, t2) := f a s1 in (r, s2, (t1 ++ t2)%list)
    | (Throw e, s1, t1) => (Throw e, s1, t1)
    end.

Definition throw {S A} (e : exn) : M S A := fun s => (Throw e, s, []).
Definition emit {S} (e : event) : M S unit := fun s => (Ok tt, s, [e]).
Definition get {S} : M S S := fun s => (Ok s, s, []).
Definition put {S} (s : S) : M S unit := fun _ => (Ok tt, s, []).

Declare Scope js_scope.
Delimit Scope js_scope with js.
Notation "x <- m ; k" := (bind m (fun x => k))
  (at level 100, m at next level, right associativity) : js_scope.
Notation "m ;; k" := (bind m (fun _ => k))
  (at level 100, right associativity) : js_scope.
Local Open Scope js_scope.

(** Projections of a completed computation. *)
Definition completion {S A} (o : result A * S * list event) : result A := o.1.1.
Definition final {S A} (o : result A * S * list event) : S := o.1.2.
Definition trace {S A} (o : result A * S * list event) : list event := o.2.

(** ** The environment of the module *)

(** What the module's free identifiers and property reads resolve against:
    the properties of the global object (an identifier declared in no
    enclosing function is looked up there), the objects references point
    to, and the options consulted by [connect]. *)
Record Env : Type := {
  globals : gmap string value;
  heap : gmap loc (gmap string value);
  DBG_CONNECTION : bool;
  remoteHost : string;
  remotePort : N;
}.

(** An identifier bound in no enclosing scope: the value of the global
    property of that name, a [ReferenceError] when there is none. *)
Definition free_var {S} (E : Env) (x : string) : M S value :=
  match globals E !! x with
  | Some v => ret v
  | None => throw (ReferenceError x)
  end.

(** [v.k] for a name [k] that strings do not carry: a [TypeError] on
    [undefined] and [null]. *)
Definition get_member {S} (E : Env) (v : value) (k : string) : M S value :=
  match v with
  | VUndef | VNull => throw (TypeError ("cannot read property " +:+ k))
  | VStr _ => ret VUndef
  | VRef l => ret (get_prop (default ∅ (heap E !! l)) k)
  end.

(** ** Data model *)

(** The reply to [listTabs]: the tab grips and the index of the selected
    one. *)
Record listTabsReply : Type := {
  tabs : list (gmap string value);
  selected : nat;
}.

(** The reply handed to an attach callback. *)
Record attachReply : Type := {
  threadActor : value;
  error : value;
}.

(** The fields of a context this module reads and writes. *)
Record context : Type := {
  tabClient : value;
  activeThread : value;
  listTabsResponse : option listTabsReply;
}.

Definition set_tabClient (v : value) (c : context) : context :=
  {| tabClient := v; activeThread := activeThread c;
     listTabsResponse := listTabsResponse c |}.
Definition set_activeThread (v : value) (c : context) : context :=
  {| tabClient := tabClient c; activeThread := v;
     listTabsResponse := listTabsResponse c |}.
Definition set_listTabsResponse (r : listTabsReply) (c : context) : context :=
  {| tabClient := tabClient c; activeThread := activeThread c;
     listTabsResponse := Some r |}.

(** A context as a function receives it: [None] is a [null] or [undefined]
    argument, on which every property access throws. *)
Definition read {A} (f : context -> A) : M (option context) A :=
  fun s =>
    match s with
    | Some c => (Ok (f c), s, [])
    | None => (Throw (TypeError "context is null"), s, [])
    end.

Definition write (upd : context -> context) : M (option context) unit :=
  fun s =>
    match s with
    | Some c => (Ok tt, Some (upd c), [])
    | None => (Throw (TypeError "context is null"), s, [])
    end.

(** Which object receives the transport's notifications. *)
Inductive hooks : Type :=
| ClientHooks      (* the client itself, as [new DebuggerClient] installs it *)
| TracingHooks.    (* the object installed by [hookPacketTransport] *)

Record Transport : Type := {
  transport_hooks : hooks;
  send_wrapped : bool;
}.

(** The fields of [DebuggerClientModule]. *)
Record Module : Type := {
  client : option DebuggerClient;
  isRemoteDebugger : bool;
  transport : option Transport;
}.

(** A call [this.client.f(...)]: a [TypeError] while [client] is null. *)
Definition on_client {S} (this : Module) (e : event) : M S unit :=
  match client this with
  | Some _ => emit e
  | None => throw (TypeError "this.client is null")
  end.

(** The same call where the module itself is the state. *)
Definition on_client_now (e : event) : M Module unit :=
  this <- get;
  on_client this e.

(** ** The module's functions *)

(** [dispatch]: one trace line, then [Firebug.Module.dispatch]. *)
Definition dispatch {S} (eventName : string) (args : list arg) : M S unit :=
  emit (FBTrace_sysout ("debuggerClientModule.dispatch; " +:+ eventName));;
  emit (Dispatch eventName args).

(** *** Debugging: the packet-tracing hook *)

(** [transport.hooks.onPacket], the closure installed by
    [hookPacketTransport].  The trace line is the label followed by
    [JSON.stringify(packet)]; the event keeps the label and the packet. *)
Definition hooks_onPacket {S} (self : Module) (packet : gmap string value)
  : M S unit :=
  if loose_eq (get_prop packet "type") (VStr "newGlobal") then
    ret tt
  else
    emit (TraceConn_sysout "PACKET RECEIVED; " packet);;
    on_client self (client_onPacket packet).

(** [transport.hooks.onClosed].  Its parameter is [status]; the body names
    [packet], which no enclosing function declares. *)
Definition hooks_onClosed {S} (E : Env) (self : Module) (status : value)
  : M S unit :=
  match client self with
  | None => throw (TypeError "self.client is null")
  | Some _ =>
      packet <- free_var E "packet";
      emit (client_onClosed packet)
  end.

(** The replacement of [transport.send]. *)
Definition send_hook {S} (self : Module) (packet : gmap string value)
  : M S unit :=
  emit (TraceConn_sysout "PACKET SEND " packet);;
  emit (transport_send packet).

(** [hookPacketTransport(transport)], called with [this.transport]. *)
Definition hookPacketTransport : M Module unit :=
  this <- get;
  match transport this with
  | None => throw (TypeError "transport is undefined")
  | Some _ =>
      put {| client := client this;
             isRemoteDebugger := isRemoteDebugger this;
             transport := Some {| transport_hooks := TracingHooks;
                                  send_wrapped := true |} |}
  end.

(** What the transport does with an inbound packet, a close notification
    and an outbound packet, given the hooks installed on it. *)
Definition transport_onPacket {S} (t : Transport) (self : Module)
    (packet : gmap string value) : M S unit :=
  match transport_hooks t with
  | ClientHooks => emit (client_onPacket packet)
  | TracingHooks => hooks_onPacket self packet
  end.

Definition transport_onClosed {S} (E : Env) (t : Transport) (self : Module)
    (status : value) : M S unit :=
  match transport_hooks t with
  | ClientHooks => emit (client_onClosed status)
  | TracingHooks => hooks_onClosed E self status
  end.

Definition transport_do_send {S} (t : Transport) (self : Module)
    (packet : gmap string value) : M S unit :=
  if send_wrapped t then send_hook self packet
  else emit (transport_send packet).

(** *** Connection *)

(** [connect].  The transport is born unhooked; [new DebuggerClient] makes
    the client its hooks, and a new client is not connected yet.  (The copy
    of the client kept in [Firebug.debuggerClient] is not modelled.) *)
Definition connect (E : Env) : M Module unit :=
  this <- get;
  (if negb (isRemoteDebugger this) then
     emit DebuggerServer_init;;
     emit DebuggerServer_addBrowserActors
   else ret tt);;
  (if isRemoteDebugger this then
     emit (debuggerSocketConnect (remoteHost E) (remotePort E))
   else emit DebuggerServer_connectPipe);;
  put {| client := client this;
         isRemoteDebugger := isRemoteDebugger this;
         transport := Some {| transport_hooks := ClientHooks;
                              send_wrapped := false |} |};;
  emit new_DebuggerClient;;
  this <- get;
  put {| client := Some {| _connected := false |};
         isRemoteDebugger := isRemoteDebugger this;
         transport := transport this |};;
  (if DBG_CONNECTION E then hookPacketTransport else ret tt);;
  on_client_now (client_addListener "tabNavigated");;
  on_client_now (client_addListener "tabDetached");;
  on_client_now client_connect.

Definition disconnect : M Module unit :=
  on_client_now (client_removeListener "tabNavigated");;
  on_client_now (client_removeListener "tabDetached");;
  on_client_now client_close.

(** [initializeUI] binds the handlers and connects; [shutdown]
    disconnects. *)
Definition initializeUI (E : Env) : M Module unit := connect E.
Definition shutdown : M Module unit := disconnect.

(** *** Tab and thread attachment *)

(** [threadClient.resume()]. *)
Definition resume {S} (threadClient : value) : M S unit :=
  match threadClient with
  | VRef _ => emit (threadClient_resume threadClient)
  | _ => throw (TypeError "threadClient.resume is not a function")
  end.

Definition attachThread {S} (this : Module) (threadActor : value) : M S unit :=
  on_client this (client_attachThread threadActor).

(** The callback [attachThread] passes to [client.attachThread]. *)
Definition attachThread_onResponse (this : Module) (response : attachReply)
    (threadClient : value) : M (option context) unit :=
  if negb (truthy threadClient) then
    emit (TraceError_sysout
            ("Couldn't attach to thread: " +:+ ToString (error response)))
  else
    write (set_activeThread threadClient);;
    dispatch "onThreadAttached" [AContext; ABool false];;
    resume threadClient.

Definition attachTab (E : Env) (this : Module) (tabActor : value)
  : M (option context) unit :=
  tc <- read tabClient;
  if truthy tc then
    response <- free_var E "response";
    threadActor <- get_member E response "threadActor";
    attachThread this threadActor
  else
    on_client this (client_attachTab tabActor).

(** The callback [attachTab] passes to [client.attachTab]. *)
Definition attachTab_onResponse (this : Module) (response : attachReply)
    (tabClient : value) : M (option context) unit :=
  if negb (truthy tabClient) then
    emit (TraceError_sysout "ERROR: No tab client found!")
  else
    write (set_tabClient tabClient);;
    dispatch "onTabAttached" [AContext; ABool false];;
    attachThread this (threadActor response).

Definition attachCurrentTab (this : Module) : M (option context) unit :=
  tc <- read tabClient;
  both <- (if truthy tc then read activeThread else ret tc);
  if truthy both then
    dispatch "onThreadDetached" [AContext; ABool true];;
    dispatch "onTabDetached" [AContext; ABool true];;
    dispatch "onTabAttached" [AContext; ABool true];;
    dispatch "onThreadAttached" [AContext; ABool true]
  else
    on_client this client_listTabs.

(** The callback [attachCurrentTab] passes to [client.listTabs]. *)
Definition attachCurrentTab_onListTabs (E : Env) (this : Module)
    (response : listTabsReply) : M (option context) unit :=
  write (set_listTabsResponse response);;
  match tabs response !! selected response with
  | None => throw (TypeError "tabGrip is undefined")
  | Some tabGrip => attachTab E this (get_prop tabGrip "actor")
  end.

(** *** Hooks *)

(** [onConnect]; the state is the object [Firebug.currentContext] refers
    to. *)
Definition onConnect (this : Module) : M (option context) unit :=
  dispatch "onConnect" [AClient (client this)];;
  attachCurrentTab this.

Definition onDisconnect {S} (this : Module) : M S unit :=
  dispatch "onDisconnect" [AClient (client this)].

Definition onTabNavigated {S} (arguments : list arg) : M S unit :=
  dispatch "onTabNavigated" arguments.

Definition onTabDetached {S} (arguments : list arg) : M S unit :=
  dispatch "onThreadDetached" arguments;;
  dispatch "onTabDetached" arguments.

(** *** Context *)

Definition initContext (this : Module)
    (persistedState : option (gmap string value)) : M (option context) unit :=
  match persistedState with
  | Some p =>
      write (set_tabClient (get_prop p "tabClient"));;
      write (set_activeThread (get_prop p "activeThread"))
  | None => ret tt
  end;;
  match client this with
  | Some c => if _connected c then attachCurrentTab this else ret tt
  | None => ret tt
  end.

(** [persistedState.k = v]; the state is the object [persistedState] refers
    to, [None] when it is [null] or [undefined]. *)
Definition assign (k : string) (v : value)
  : M (option (gmap string value)) unit :=
  fun s =>
    match s with
    | Some p => (Ok tt, Some (<[k := v]> p), [])
    | None => (Throw (TypeError "persistedState is undefined"), s, [])
    end.

(** [context.f] for the argument [context] of [destroyContext]. *)
Definition field {S A} (o : option context) (f : context -> A) : M S A :=
  match o with
  | Some c => ret (f c)
  | None => throw (TypeError "context is null")
  end.

Definition destroyContext (context : option context)
  : M (option (gmap string value)) unit :=
  tc <- field context tabClient;
  assign "tabClient" tc;;
  at_ <- field context activeThread;
  assign "activeThread" at_.

(** *** Actors *)

(** The [for] loop of [getActorId] over [tabs.tabs]. *)
Fixpoint getActorId_loop (tabs : list (gmap string value))
    (currTabActorId : value) (actorName : string) : value :=
  match tabs with
  | [] => VUndef
  | tab :: rest =>
      if loose_eq (get_prop tab "actor") currTabActorId
      then get_prop tab actorName
      else getActorId_loop rest currTabActorId actorName
  end.

Definition getActorId (E : Env) (actorName : string)
  : M (option context) value :=
  listing <- read listTabsResponse;
  match listing with
  | None => ret VUndef
  | Some r =>
      tc <- read tabClient;
      currTabActorId <- get_member E tc "_actor";
      ret (getActorId_loop (tabs r) currTabActorId actorName)
  end.

(** ** Observations on traces *)

Definition is_protocol_call (e : event) : bool :=
  match e with
  | client_listTabs | client_attachTab _ | client_attachThread _ => true
  | _ => false
  end.

Definition is_attachTab_call (e : event) : bool :=
  match e with
  | client_attachTab _ => true
  | _ => false
  end.

(** The protocol calls of a trace, in order. *)
Definition protocol_calls (t : list event) : list event :=
  List.filter is_protocol_call t.

(** The events fanned out to the listeners, in order. *)
Fixpoint dispatched (t : list event) : list (string * list arg) :=
  match t with
  | [] => []
  | Dispatch n a :: t' => (n, a) :: dispatched t'
  | _ :: t' => dispatched t'
  end.

(** How many times the event [name] was fanned out. *)
Definition dispatch_count (name : string) (t : list event) : nat :=
  length (List.filter (fun d => String.eqb d.1 name) (dispatched t)).

(** ** The manager at work

    One debugged tab: the module, the context currently open for the tab
    (also [Firebug.currentContext]), and the [persistedState] object the tab
    watcher keeps across reloads.  Every turn, a reply of the server
    included, runs on the context that is open when it happens; [browser]
    below keeps every context object and runs a reply on the context its
    callback closed over. *)
Record system : Type := {
  sys_this : Module;
  sys_context : option context;
  sys_persisted : gmap string value;
}.

Inductive op : Type :=
| op_connect                     (* [initializeUI], which calls [connect] *)
| op_hello                       (* the server greets: the client turns
                                    connected and calls [onConnect] *)
| op_disconnect                  (* [shutdown], which calls [disconnect] *)
| op_closed                      (* the client calls [onDisconnect] *)
| op_tabNavigated (arguments : list arg)
| op_tabDetached (arguments : list arg)
| op_initContext (restore : bool)  (* a context is opened for the tab, with
                                      [persistedState] or with [undefined] *)
| op_destroyContext
| op_listTabs_reply (response : listTabsReply)
| op_attachTab_reply (response : attachReply) (tabClient : value)
| op_attachThread_reply (response : attachReply) (threadClient : value)
(* the attach functions and [getActorId] called by a client tool *)
| op_attachCurrentTab
| op_attachTab (tabActor : value)
| op_attachThread (threadActor : value)
| op_getActorId (actorName : string)
(* the transport at work *)
| op_packet (packet : gmap string value)
| op_transport_closed (status : value)
| op_send (packet : gmap string value).

(** The context object a tab watcher creates. *)
Definition fresh_context : context :=
  {| tabClient := VUndef; activeThread := VUndef; listTabsResponse := None |}.

(** The client once the server's greeting has arrived. *)
Definition connected (this : Module) : Module :=
  {| client := (fun _ => {| _connected := true |}) <$> client this;
     isRemoteDebugger := isRemoteDebugger this;
     transport := transport this |}.

Definition with_this (s : system) (o : result unit * Module * list event)
  : system * list event :=
  ({| sys_this := final o; sys_context := sys_context s;
      sys_persisted := sys_persisted s |},
   trace o).

(** A turn on the open context. *)
Definition with_context {A} (s : system) (this : Module)
    (o : result A * option context * list event) : system * list event :=
  ({| sys_this := this; sys_context := final o;
      sys_persisted := sys_persisted s |},
   trace o).

(** One turn of the event loop.  An exception that escapes the turn ends
    it; what the turn did until then stays. *)
Definition step (E : Env) (o : op) (s : system) : system * list event :=
  let this := sys_this s in
  match o with
  | op_connect => with_this s (initializeUI E this)
  | op_hello =>
      match client this with
      | Some _ =>
          with_context s (connected this)
            (onConnect (connected this) (sys_context s))
      | None => (s, [])
      end
  | op_disconnect => with_this s (shutdown this)
  | op_closed =>
      with_context s this (onDisconnect this (sys_context s))
  | op_tabNavigated a =>
      with_context s this (onTabNavigated a (sys_context s))
  | op_tabDetached a =>
      with_context s this (onTabDetached a (sys_context s))
  | op_initContext restore =>
      with_context s this
        (initContext this
           (if restore then Some (sys_persisted s) else None)
           (Some fresh_context))
  | op_destroyContext =>
      let o := destroyContext (sys_context s) (Some (sys_persisted s)) in
      ({| sys_this := this; sys_context := sys_context s;
          sys_persisted := default (sys_persisted s) (final o) |},
       trace o)
  | op_listTabs_reply r =>
      with_context s this
        (attachCurrentTab_onListTabs E this r (sys_context s))
  | op_attachTab_reply r tc =>
      with_context s this
        (attachTab_onResponse this r tc (sys_context s))
  | op_attachThread_reply r thc =>
      with_context s this
        (attachThread_onResponse this r thc (sys_context s))
  | op_attachCurrentTab =>
      with_context s this
        (attachCurrentTab this (sys_context s))
  | op_attachTab a =>
      with_context s this (attachTab E this a (sys_context s))
  | op_attachThread a =>
      with_context s this (attachThread this a (sys_context s))
  | op_getActorId n =>
      with_context s this (getActorId E n (sys_context s))
  | op_packet p =>
      match transport this with
      | Some t =>
          with_context s this
            (transport_onPacket t this p (sys_context s))
      | None => (s, [])
      end
  | op_transport_closed st =>
      match transport this with
      | Some t =>
          with_context s this
            (transport_onClosed E t this st (sys_context s))
      | None => (s, [])
      end
  | op_send p =>
      match transport this with
      | Some t =>
          with_context s this
            (transport_do_send t this p (sys_context s))
      | None => (s, [])
      end
  end.

Fixpoint run (E : Env) (ops : list op) (s : system) : system * list event :=
  match ops with
  | [] => (s, [])
  | o :: ops' =>
      let '(s1, t1) := step E o s in
      let '(s2, t2) := run E ops' s1 in
      (s2, (t1 ++ t2)%list)
  end.

(** The manager before [initializeUI]: no client, no context open, nothing
    persisted. *)
Definition initial (remote : bool) : system :=
  {| sys_this := {| client := None; isRemoteDebugger := remote;
                    transport := None |};
     sys_context := None; sys_persisted := ∅ |}.

(** [null] and [undefined] are the two absent values. *)
Definition non_null (v : value) : bool :=
  match v with
  | VUndef | VNull => false
  | _ => true
  end.

(** A handle slot holds nothing ([undefined] or [null]) or a truthy
    value. *)
Definition handle_like (v : value) : bool :=
  negb (non_null v) || truthy v.

(** Every handle slot of the open context and of [persistedState] is
    handle-like. *)
Definition handles_invariant (s : system) : Prop :=
  match sys_context s with
  | Some c =>
      handle_like (tabClient c) = true /\ handle_like (activeThread c) = true
  | None => True
  end /\
  handle_like (get_prop (sys_persisted s) "tabClient") = true /\
  handle_like (get_prop (sys_persisted s) "activeThread") = true.

(** No further connection is set up in [ops]. *)
Definition no_reconnect (ops : list op) : bool :=
  forallb (fun o => match o with op_connect | op_hello => false | _ => true end)
          ops.

(** ** Notions the statements use *)

(** The first tab entry of a listing whose [actor] equals [id]. *)
Definition first_matching_tab (tabs : list (gmap string value)) (id : value)
  : option (gmap string value) :=
  List.find (fun tab => loose_eq (get_prop tab "actor") id) tabs.

(** The events of the refresh branch of [attachCurrentTab]. *)
Definition refresh_events : list event :=
  [ FBTrace_sysout "debuggerClientModule.dispatch; onThreadDetached";
    Dispatch "onThreadDetached" [AContext; ABool true];
    FBTrace_sysout "debuggerClientModule.dispatch; onTabDetached";
    Dispatch "onTabDetached" [AContext; ABool true];
    FBTrace_sysout "debuggerClientModule.dispatch; onTabAttached";
    Dispatch "onTabAttached" [AContext; ABool true];
    FBTrace_sysout "debuggerClientModule.dispatch; onThreadAttached";
    Dispatch "onThreadAttached" [AContext; ABool true] ].

(** [this.client && this.client._connected]. *)
Definition is_connected (this : Module) : bool :=
  match client this with
  | Some cl => _connected cl
  | None => false
  end.

(** The actor identifier a tab client is bound to: the [_actor] property
    of the object the handle refers to. *)
Definition handle_actor (E : Env) (handle : value) : value :=
  match handle with
  | VRef l => get_prop (default ∅ (heap E !! l)) "_actor"
  | _ => VUndef
  end.

(** ** Concrete inputs used in the examples *)

Definition traced_transport : Transport :=
  {| transport_hooks := TracingHooks; send_wrapped := true |}.

Definition traced_module : Module :=
  {| client := Some {| _connected := true |}; isRemoteDebugger := false;
     transport := Some traced_transport |}.

Definition newGlobal_packet : gmap string value :=
  {[ "type" := VStr "newGlobal"; "from" := VStr "root" ]}.

Definition paused_packet : gmap string value :=
  {[ "type" := VStr "paused"; "from" := VStr "conn0.thread1" ]}.

(** No global named [packet] or [response]; one tab handle at location 1,
    attached to the actor "tab2". *)
Definition plain_env : Env :=
  {| globals := ∅;
     heap := {[ 1%positive := {[ "_actor" := VStr "tab2" ]} ]};
     DBG_CONNECTION := true; remoteHost := "localhost"; remotePort := 5999%N |}.

Definition two_tabs : listTabsReply :=
  {| tabs := [ {[ "actor" := VStr "tab1"; "consoleActor" := VStr "console1" ]};
               {[ "actor" := VStr "tab2"; "consoleActor" := VStr "console2" ]} ];
     selected := 1 |}.

(** A context whose tab and thread are attached. *)
Definition attached_context : context :=
  {| tabClient := VRef 1%positive; activeThread := VRef 2%positive;
     listTabsResponse := Some two_tabs |}.

(** A context whose tab is attached and whose thread is not. *)
Definition tab_only_context : context :=
  {| tabClient := VRef 1%positive; activeThread := VUndef;
     listTabsResponse := Some two_tabs |}.

(** A context that has cached the listing and has no tab client yet (the
    state between the reply to [listTabs] and the reply to [attachTab]). *)
Definition listed_context : context :=
  {| tabClient := VUndef; activeThread := VUndef;
     listTabsResponse := Some two_tabs |}.

Definition no_reply : attachReply :=
  {| threadActor := VUndef; error := VStr "wrongState" |}.

Definition tab2_reply : attachReply :=
  {| threadActor := VStr "thread2"; error := VUndef |}.

Definition one_tab : listTabsReply :=
  {| tabs := [ {[ "actor" := VStr "tab1" ]} ]; selected := 0 |}.

(** A session in embedded mode up to the reply to [listTabs]. *)
Definition until_listed : list op :=
  [op_connect; op_initContext false; op_hello; op_listTabs_reply two_tabs].

(** The same session, where the tab attaches and the thread does not. *)
Definition until_thread_failed : list op :=
  (until_listed ++
   [op_attachTab_reply tab2_reply (VRef 1%positive);
    op_attachThread_reply no_reply VUndef])%list.

(** The same session, where tab and thread attach, followed by a reload:
    the context is saved and a new one restored. *)
Definition until_reloaded : list op :=
  (until_listed ++
   [op_attachTab_reply tab2_reply (VRef 1%positive);
    op_attachThread_reply tab2_reply (VRef 2%positive);
    op_destroyContext; op_initContext true])%list.

(** ** Contexts across reloads

    Every context object created for the tab is kept, by creation order,
    whether it is still open or was destroyed: a callback the module handed
    to the client closes over the context of the call that created it, and
    writes that context when the server replies, later reloads
    notwithstanding. *)

(** A callback held by the client, with the index of the context object it
    closed over. *)
Inductive callback : Type :=
| cb_listTabs (k : nat)       (* of [attachCurrentTab] *)
| cb_attachTab (k : nat)      (* of [attachTab] *)
| cb_attachThread (k : nat).  (* of [attachThread] *)

(** What the server hands to a callback. *)
Inductive reply : Type :=
| reply_listTabs (response : listTabsReply)
| reply_attach (response : attachReply) (handle : value).

(** The callbacks created by the protocol calls of a turn on context [k],
    in the order of the calls. *)
Fixpoint callbacks_of (k : nat) (t : list event) : list callback :=
  match t with
  | [] => []
  | client_listTabs :: t' => cb_listTabs k :: callbacks_of k t'
  | client_attachTab _ :: t' => cb_attachTab k :: callbacks_of k t'
  | client_attachThread _ :: t' => cb_attachThread k :: callbacks_of k t'
  | _ :: t' => callbacks_of k t'
  end.

(** The module, the context objects, the one that is current
    ([Firebug.currentContext], [None] for null), [persistedState] and the
    callbacks the client holds.  Two history marks, which no function
    reads: the contexts for whose session the thread-attach step has
    completed, and whether it had completed for the session last saved in
    [persistedState]. *)
Record browser : Type := {
  b_this : Module;
  b_contexts : list context;
  b_current : option nat;
  b_persisted : gmap string value;
  b_pending : list callback;
  b_completed : gset nat;
  b_persisted_completed : bool;
}.

Inductive action : Type :=
| act_connect
| act_hello
| act_disconnect
| act_closed
| act_tabNavigated (arguments : list arg)
| act_tabDetached (arguments : list arg)
| act_initContext (restore : bool)     (* a new context object is opened *)
| act_showContext (k : option nat)     (* [Firebug.currentContext] changes *)
| act_destroyContext (k : nat)
| act_reply (i : nat) (r : reply)      (* the server answers the [i]-th
                                          callback the client holds *)
| act_attachCurrentTab (k : nat)
| act_attachTab (k : nat) (tabActor : value)
| act_attachThread (k : nat) (threadActor : value)
| act_getActorId (k : nat) (actorName : string)
| act_packet (packet : gmap string value)
| act_transport_closed (status : value)
| act_send (packet : gmap string value).

(** A turn that changes nothing but the module. *)
Definition b_with_this (b : browser) (o : result unit * Module * list event)
  : browser * list event :=
  ({| b_this := final o; b_contexts := b_contexts b;
      b_current := b_current b; b_persisted := b_persisted b;
      b_pending := b_pending b; b_completed := b_completed b;
      b_persisted_completed := b_persisted_completed b |},
   trace o).

(** A turn on the context object [k] by the module [this]: the object takes
    the state the turn leaves, and the client holds the callbacks of the
    turn's protocol calls.  [completes] says that the turn is the server
    handing a thread client to the [attachThread] callback of [k].  There
    is no turn on an object that does not exist. *)
Definition on_context {A} (b : browser) (this : Module) (k : nat)
    (completes : bool) (m : M (option context) A) : browser * list event :=
  match b_contexts b !! k with
  | None => (b, [])
  | Some c =>
      let o := m (Some c) in
      ({| b_this := this;
          b_contexts :=
            match final o with
            | Some c' => <[k := c']> (b_contexts b)
            | None => b_contexts b
            end;
          b_current := b_current b;
          b_persisted := b_persisted b;
          b_pending := (b_pending b ++ callbacks_of k (trace o))%list;
          b_completed :=
            if completes then {[k]} ∪ b_completed b else b_completed b;
          b_persisted_completed := b_persisted_completed b |},
       trace o)
  end.

(** A turn that touches no context. *)
Definition off_context (b : browser) (this : Module) (m : M unit unit)
  : browser * list event :=
  ({| b_this := this; b_contexts := b_contexts b;
      b_current := b_current b; b_persisted := b_persisted b;
      b_pending := b_pending b; b_completed := b_completed b;
      b_persisted_completed := b_persisted_completed b |},
   trace (m tt)).

(** The client forgets the [i]-th callback once it has called it. *)
Definition forget (i : nat) (b : browser) : browser :=
  {| b_this := b_this b; b_contexts := b_contexts b;
     b_current := b_current b; b_persisted := b_persisted b;
     b_pending := (take i (b_pending b) ++ drop (S i) (b_pending b))%list;
     b_completed := b_completed b;
     b_persisted_completed := b_persisted_completed b |}.

(** One turn of the event loop. *)
Definition b_step (E : Env) (a : action) (b : browser) : browser * list event :=
  let this := b_this b in
  match a with
  | act_connect => b_with_this b (initializeUI E this)
  | act_hello =>
      match client this with
      | Some _ =>
          match b_current b with
          | Some k => on_context b (connected this) k false
                        (onConnect (connected this))
          | None =>
              ({| b_this := connected this; b_contexts := b_contexts b;
                  b_current := None; b_persisted := b_persisted b;
                  b_pending := b_pending b; b_completed := b_completed b;
                  b_persisted_completed := b_persisted_completed b |},
               trace (onConnect (connected this) None))
          end
      | None => (b, [])
      end
  | act_disconnect => b_with_this b (shutdown this)
  | act_closed => off_context b this (onDisconnect this)
  | act_tabNavigated args => off_context b this (onTabNavigated args)
  | act_tabDetached args => off_context b this (onTabDetached args)
  | act_initContext restore =>
      let k := length (b_contexts b) in
      let o := initContext this
                 (if restore then Some (b_persisted b) else None)
                 (Some fresh_context) in
      ({| b_this := this;
          b_contexts :=
            (b_contexts b ++ [default fresh_context (final o)])%list;
          b_current := b_current b;
          b_persisted := b_persisted b;
          b_pending := (b_pending b ++ callbacks_of k (trace o))%list;
          b_completed :=
            if restore && b_persisted_completed b
            then {[k]} ∪ b_completed b else b_completed b;
          b_persisted_completed := b_persisted_completed b |},
       trace o)
  | act_showContext None =>
      ({| b_this := this; b_contexts := b_contexts b;
          b_current := None; b_persisted := b_persisted b;
          b_pending := b_pending b; b_completed := b_completed b;
          b_persisted_completed := b_persisted_completed b |}, [])
  | act_showContext (Some k) =>
      match b_contexts b !! k with
      | Some _ =>
          ({| b_this := this; b_contexts := b_contexts b;
              b_current := Some k; b_persisted := b_persisted b;
              b_pending := b_pending b; b_completed := b_completed b;
              b_persisted_completed := b_persisted_completed b |}, [])
      | None => (b, [])
      end
  | act_destroyContext k =>
      match b_contexts b !! k with
      | Some c =>
          let o := destroyContext (Some c) (Some (b_persisted b)) in
          ({| b_this := this; b_contexts := b_contexts b;
              b_current := b_current b;
              b_persisted := default (b_persisted b) (final o);
              b_pending := b_pending b;
              b_completed := b_completed b;
              b_persisted_completed := bool_decide (k ∈ b_completed b) |},
           trace o)
      | None => (b, [])
      end
  | act_reply i r =>
      match b_pending b !! i, r with
      | Some (cb_listTabs k), reply_listTabs response =>
          on_context (forget i b) this k false
            (attachCurrentTab_onListTabs E this response)
      | Some (cb_attachTab k), reply_attach response tabClient =>
          on_context (forget i b) this k false
            (attachTab_onResponse this response tabClient)
      | Some (cb_attachThread k), reply_attach response threadClient =>
          on_context (forget i b) this k (truthy threadClient)
            (attachThread_onResponse this response threadClient)
      | _, _ => (b, [])
      end
  | act_attachCurrentTab k => on_context b this k false (attachCurrentTab this)
  | act_attachTab k a => on_context b this k false (attachTab E this a)
  | act_attachThread k a => on_context b this k false (attachThread this a)
  | act_getActorId k n => on_context b this k false (getActorId E n)
  | act_packet p =>
      match transport this with
      | Some t => off_context b this (transport_onPacket t this p)
      | None => (b, [])
      end
  | act_transport_closed st =>
      match transport this with
      | Some t => off_context b this (transport_onClosed E t this st)
      | None => (b, [])
      end
  | act_send p =>
      match transport this with
      | Some t => off_context b this (transport_do_send t this p)
      | None => (b, [])
      end
  end.

Fixpoint b_run (E : Env) (acts : list action) (b : browser)
  : browser * list event :=
  match acts with
  | [] => (b, [])
  | a :: acts' =>
      let '(b1, t1) := b_step E a b in
      let '(b2, t2) := b_run E acts' b1 in
      (b2, (t1 ++ t2)%list)
  end.

(** The browser before [initializeUI]. *)
Definition b_initial (remote : bool) : browser :=
  {| b_this := {| client := None; isRemoteDebugger := remote;
                  transport := None |};
     b_contexts := []; b_current := None; b_persisted := ∅;
     b_pending := []; b_completed := ∅; b_persisted_completed := false |}.

(** [activeThread] is set exactly where the thread-attach step has
    completed: on every context object, open or destroyed, and in
    [persistedState]. *)
Definition thread_attach_invariant (b : browser) : Prop :=
  (forall (k : nat) (c : context),
      b_contexts b !! k = Some c ->
      (non_null (activeThread c) = true <-> k ∈ b_completed b)) /\
  (non_null (get_prop (b_persisted b) "activeThread") = true <->
   b_persisted_completed b = true).

(** Only context objects that exist are marked. *)
Definition completed_exist (b : browser) : Prop :=
  forall k : nat, k ∈ b_completed b -> k < length (b_contexts b).

(** A turn that leaves [activeThread] of the context it runs on as it
    was. *)
Definition thread_kept {A} (m : M (option context) A) : Prop :=
  forall c : context,
    activeThread <$> final (m (Some c)) = Some (activeThread c).

(** The invariant carried through a run: the marks agree with the fields,
    and only existing objects are marked. *)
Definition marks_agree (b : browser) : Prop :=
  thread_attach_invariant b /\ completed_exist b.

(** A reload while the reply to [attachThread] is outstanding: the first
    context attaches its tab, is saved and replaced, and only then does the
    server hand over the thread client. *)
Definition reload_before_thread_reply : list action :=
  [ act_connect; act_initContext false; act_showContext (Some 0); act_hello;
    act_reply 0 (reply_listTabs two_tabs);
    act_reply 0 (reply_attach tab2_reply (VRef 1%positive));
    act_destroyContext 0; act_initContext true; act_showContext (Some 1);
    act_reply 0 (reply_attach tab2_reply (VRef 2%positive)) ].

(** ** Further notions: sequences of turns, projections of traces *)

#[global] Instance DebuggerClient_eq_dec : EqDecision DebuggerClient.
Proof. solve_decision. Defined.

#[global] Instance arg_eq_dec : EqDecision arg.
Proof. solve_decision. Defined.

(** Turns of the event loop on one object, one after the other: an
    exception ends its own turn only. *)
Fixpoint turns {S} (ms : list (M S unit)) (s : S) : S * list event :=
  match ms with
  | [] => (s, [])
  | m :: ms' =>
      let '(_, s1, t1) := m s in
      let '(s2, t2) := turns ms' s1 in
      (s2, (t1 ++ t2)%list)
  end.

(** The transport delivers the inbound [packets], one turn each. *)
Definition deliver {S} (t : Transport) (self : Module)
    (packets : list (gmap string value)) (s : S) : S * list event :=
  turns (List.map (transport_onPacket t self) packets) s.

(** The client sends the outbound [packets], one turn each. *)
Definition send_all {S} (t : Transport) (self : Module)
    (packets : list (gmap string value)) (s : S) : S * list event :=
  turns (List.map (transport_do_send t self) packets) s.

(** The packets the client's packet handler received, in order. *)
Fixpoint received (t : list event) : list (gmap string value) :=
  match t with
  | [] => []
  | client_onPacket p :: t' => p :: received t'
  | _ :: t' => received t'
  end.

(** The packets that went out on the wire, in order. *)
Fixpoint sent (t : list event) : list (gmap string value) :=
  match t with
  | [] => []
  | transport_send p :: t' => p :: sent t'
  | _ :: t' => sent t'
  end.

(** The packets written to the connection trace, in order. *)
Fixpoint traced (t : list event) : list (gmap string value) :=
  match t with
  | [] => []
  | TraceConn_sysout _ p :: t' => p :: traced t'
  | _ :: t' => traced t'
  end.

(** [packet.type == "newGlobal"], as a property of the packet. *)
Definition is_newGlobal (packet : gmap string value) : bool :=
  bool_decide (get_prop packet "type" = VStr "newGlobal").

(** A call on the protocol client. *)
Definition is_client_event (e : event) : bool :=
  match e with
  | client_listTabs | client_attachTab _ | client_attachThread _
  | client_addListener _ | client_removeListener _ | client_connect
  | client_close | client_onPacket _ | client_onClosed _ => true
  | _ => false
  end.

(** The listeners registered on, and removed from, the client. *)
Fixpoint added_listeners (t : list event) : list string :=
  match t with
  | [] => []
  | client_addListener n :: t' => n :: added_listeners t'
  | _ :: t' => added_listeners t'
  end.

Fixpoint removed_listeners (t : list event) : list string :=
  match t with
  | [] => []
  | client_removeListener n :: t' => n :: removed_listeners t'
  | _ :: t' => removed_listeners t'
  end.

(** Every element of [l] is acceptable after its predecessor ([prev] before
    the first). *)
Fixpoint follows {A} (ok : option A -> A -> bool) (prev : option A)
    (l : list A) : bool :=
  match l with
  | [] => true
  | x :: l' => ok prev x && follows ok (Some x) l'
  end.

(** A fan-out is acceptable right after the trace line of [dispatch] for
    its event name; anything else is acceptable anywhere. *)
Definition after_trace_line (prev : option event) (e : event) : bool :=
  match e with
  | Dispatch n _ =>
      match prev with
      | Some (FBTrace_sysout m) =>
          String.eqb m ("debuggerClientModule.dispatch; " +:+ n)
      | _ => false
      end
  | _ => true
  end.

(** "onTabDetached" is acceptable right after "onThreadDetached" with the
    same arguments; any other event is acceptable anywhere. *)
Definition after_thread_detached (prev : option (string * list arg))
    (d : string * list arg) : bool :=
  if String.eqb d.1 "onTabDetached" then
    match prev with
    | Some (m, b) => String.eqb m "onThreadDetached" && bool_decide (b = d.2)
    | None => false
    end
  else true.

(** The whole attach sequence on one context: [attachCurrentTab], then the
    replies of the server to [listTabs], [attachTab] and [attachThread]. *)
Definition attach_sequence (E : Env) (this : Module) (listing : listTabsReply)
    (tabReply : attachReply) (tabClient : value)
    (threadReply : attachReply) (threadClient : value)
  : M (option context) unit :=
  attachCurrentTab this;;
  attachCurrentTab_onListTabs E this listing;;
  attachTab_onResponse this tabReply tabClient;;
  attachThread_onResponse this threadReply threadClient.

(** The context [initContext] leaves behind. *)
Definition restored (persistedState : option (gmap string value))
    (c : context) : context :=
  match persistedState with
  | Some p =>
      {| tabClient := get_prop p "tabClient";
         activeThread := get_prop p "activeThread";
         listTabsResponse := listTabsResponse c |}
  | None => c
  end.

(** How many greetings [ops] holds. *)
Definition count_hello (ops : list op) : nat :=
  length (List.filter (fun o => match o with op_hello => true | _ => false end)
            ops).

(** The operations that may store a handle in the open context. *)
Definition stores_handle (o : op) : bool :=
  match o with
  | op_initContext _ | op_attachTab_reply _ _ | op_attachThread_reply _ _ =>
      true
  | _ => false
  end.

Definition is_connect (o : op) : bool :=
  match o with
  | op_connect => true
  | _ => false
  end.

(** ** SelectionController (tests/FBTest/content/FBTestSelection.js)

    The test-side wrapper keeps its own list of the listeners a test
    registered with [FBTestApp.SelectionController].  [FW.FBL.remove], which
    edits the list in place, belongs to Firebug's library and is a
    parameter: [FBL_remove list item] is the list it leaves. *)
Section SelectionController.

Context {listener : Type}.
Variable FBL_remove : list listener -> listener -> list listener.

Inductive app_call : Type :=
| App_addListener (l : listener)
| App_removeListener (l : listener).

(** [addListener]: the call on the application's controller, then
    [this.listeners.push(listener)]. *)
Definition sc_addListener (l : listener) (listeners : list listener)
  : list listener * list app_call :=
  ((listeners ++ [l])%list, [App_addListener l]).

(** [removeListener]. *)
Definition sc_removeListener (l : listener) (listeners : list listener)
  : list listener * list app_call :=
  (FBL_remove listeners l, [App_removeListener l]).

(** [cleanUp]: [while (this.listeners.length)
    this.removeListener(this.listeners[0])], for at most [fuel] rounds;
    [None] when the fuel runs out with listeners left. *)
Fixpoint sc_cleanUp (fuel : nat) (listeners : list listener)
  : option (list listener * list app_call) :=
  match listeners with
  | [] => Some ([], [])
  | first :: _ =>
      match fuel with
      | 0 => None
      | S fuel' =>
          let '(l1, t1) := sc_removeListener first listeners in
          match sc_cleanUp fuel' l1 with
          | Some (l2, t2) => Some (l2, (t1 ++ t2)%list)
          | None => None
          end
      end
  end.

(** A test registers the listeners [ls], one call of [addListener]
    each. *)
Fixpoint sc_addAll (ls : list listener) (listeners : list listener)
  : list listener * list app_call :=
  match ls with
  | [] => (listeners, [])
  | l :: ls' =>
      let '(l1, t1) := sc_addListener l listeners in
      let '(l2, t2) := sc_addAll ls' l1 in
      (l2, (t1 ++ t2)%list)
  end.

End SelectionController.

(** A removal function for the examples, on numbered listeners: the first
    occurrence goes. *)
Fixpoint remove_first (l : list nat) (x : nat) : list nat :=
  match l with
  | [] => []
  | y :: l' => if Nat.eqb y x then l' else y :: remove_first l' x
  end.

(** ** Proof automation *)

(** Unfolds the monad in a goal about one function body and splits on every
    test the body makes. *)
Ltac run_body :=
  unfold on_client_now, dispatch, resume in *;
  unfold bind, read, write, ret, emit, throw, get, put, on_client,
    field, assign, free_var, get_member, completion, final, trace in *;
  simpl in *;
  repeat match goal with
         | |- context [match ?x with _ => _ end] =>
             lazymatch x with
             | context [match _ with _ => _ end] => fail
             | _ => destruct x eqn:?; simpl in *
             end
         end.

(** A turn keeps the handle slots handle-like when it leaves them alone or
    stores truthy values in them. *)
Definition keeps_handles {A} (o : result A * option context * list event)
    (s : option context) : Prop :=
  match final o, s with
  | Some c', Some c =>
      (tabClient c' = tabClient c \/ truthy (tabClient c') = true) /\
      (activeThread c' = activeThread c \/ truthy (activeThread c') = true)
  | None, None => True
  | _, _ => False
  end.

Ltac keeps :=
  unfold keeps_handles; run_body; auto.

(** ** Basic facts *)

Lemma loose_eq_newGlobal (v : value) :
  loose_eq v (VStr "newGlobal") = true <-> v = VStr "newGlobal".
Proof.
  destruct v as [| |s|l]; simpl; try (split; discriminate).
  rewrite String.eqb_eq. split; congruence.
Qed.

Lemma handle_truthy (l : loc) : truthy (VRef l) = true.
Proof. reflexivity. Qed.

Lemma truthy_non_null (v : value) : truthy v = true -> non_null v = true.
Proof. destruct v; simpl; intros H; try discriminate; reflexivity. Qed.

(** [attachCurrentTab] writes no field of the context. *)
Lemma attachCurrentTab_final (this : Module) (s : option context) :
  final (attachCurrentTab this s) = s.
Proof.
  unfold attachCurrentTab. run_body; reflexivity.
Qed.

(** The refresh branch of [attachCurrentTab], event by event. *)
Lemma refresh_branch_trace (this : Module) (c : context) :
  truthy (tabClient c) = true -> truthy (activeThread c) = true ->
  attachCurrentTab this (Some c) = (Ok tt, Some c, refresh_events).
Proof.
  intros Ht Ha. unfold attachCurrentTab, bind, read. simpl.
  rewrite Ht, Ha. reflexivity.
Qed.

(** The loop of [getActorId] returns the field of the first grip whose
    actor matches. *)
Lemma getActorId_loop_find (tabs : list (gmap string value)) (id : value)
    (actorName : string) :
  getActorId_loop tabs id actorName =
    match first_matching_tab tabs id with
    | Some tab => get_prop tab actorName
    | None => VUndef
    end.
Proof.
  unfold first_matching_tab.
  induction tabs as [|tab rest IH]; simpl; [reflexivity|].
  destruct (loose_eq (get_prop tab "actor") id); [reflexivity|exact IH].
Qed.

(** The already-attached branch of [attachTab] when no global is named
    [response]. *)
Lemma attachTab_attached_throws (E : Env) (this : Module) (tabActor : value)
    (c : context) :
  truthy (tabClient c) = true -> globals E !! "response" = None ->
  attachTab E this tabActor (Some c) =
    (Throw (ReferenceError "response"), Some c, []).
Proof.
  intros Ht Hg. unfold attachTab, bind, read, free_var. simpl.
  rewrite Ht, Hg. reflexivity.
Qed.

(** ** Packet tracing *)

(** C1, as stated, fails: under the tracing hook a packet of type
    "newGlobal" is not handed to the client's packet handler; the hook
    returns before the forwarding call, so the packet produces no event at
    all. *)
Lemma newGlobal_packet_not_forwarded :
  trace (transport_onPacket traced_transport traced_module newGlobal_packet tt)
    = [] /\
  ~ In (client_onPacket newGlobal_packet)
       (trace (transport_onPacket traced_transport traced_module
                 newGlobal_packet tt)).
Proof. split; [reflexivity | intros H; exact H]. Qed.

Section TracingHook.

(** The transport carries the hooks of [hookPacketTransport], and the
    module has its client, as [connect] leaves them when tracing is on. *)
Context {S : Type} (E : Env) (t : Transport) (self : Module)
  (cl : DebuggerClient).
Hypothesis hook_installed : transport_hooks t = TracingHooks.
Hypothesis has_client : client self = Some cl.

(** C1, amended: while the tracing hook is installed, an inbound packet
    whose type is "newGlobal" is neither logged nor forwarded, and every
    other inbound packet is first logged and then forwarded to the client's
    packet handler, in that order. *)
Theorem traced_onPacket (packet : gmap string value) (s : S) :
  transport_onPacket t self packet s =
    if bool_decide (get_prop packet "type" = VStr "newGlobal")
    then (Ok tt, s, [])
    else (Ok tt, s, [ TraceConn_sysout "PACKET RECEIVED; " packet;
                      client_onPacket packet ]).
Proof.
  unfold transport_onPacket, hooks_onPacket. rewrite hook_installed.
  destruct (loose_eq (get_prop packet "type") (VStr "newGlobal")) eqn:Heq.
  - apply loose_eq_newGlobal in Heq. rewrite bool_decide_true by exact Heq.
    reflexivity.
  - rewrite bool_decide_false.
    + unfold bind, emit, on_client. rewrite has_client. reflexivity.
    + intros Hty. apply loose_eq_newGlobal in Hty. congruence.
Qed.

(** C10: under the tracing hook, when no global is named [packet], every
    close notification makes the [onClosed] hook throw a [ReferenceError]
    on [packet] before the client's [onClosed] is called: the close status
    never reaches the client. *)
Theorem traced_onClosed_faults (status : value) (s : S) :
  globals E !! "packet" = None ->
  transport_onClosed E t self status s =
    (Throw (ReferenceError "packet"), s, []).
Proof.
  intros Hg. unfold transport_onClosed, hooks_onClosed.
  rewrite hook_installed, has_client.
  unfold bind, free_var. rewrite Hg. reflexivity.
Qed.

(** Outbound packets are logged, then sent. *)
Lemma traced_send (packet : gmap string value) (s : S) :
  send_wrapped t = true ->
  transport_do_send t self packet s =
    (Ok tt, s, [ TraceConn_sysout "PACKET SEND " packet;
                 transport_send packet ]).
Proof. intros Hw. unfold transport_do_send. rewrite Hw. reflexivity. Qed.

End TracingHook.

Lemma traced_onPacket_witness :
  transport_onPacket traced_transport traced_module paused_packet tt =
    (Ok tt, tt, [ TraceConn_sysout "PACKET RECEIVED; " paused_packet;
                  client_onPacket paused_packet ]).
Proof.
  exact (traced_onPacket traced_transport traced_module
           {| _connected := true |} eq_refl eq_refl paused_packet tt).
Defined.

Lemma traced_onClosed_faults_witness :
  transport_onClosed plain_env traced_transport traced_module (VStr "closed") tt
    = (Throw (ReferenceError "packet"), tt, []).
Proof.
  exact (traced_onClosed_faults plain_env traced_transport traced_module
           {| _connected := true |} eq_refl eq_refl (VStr "closed") tt
           eq_refl).
Defined.

(** With tracing on, [connect] leaves exactly that transport and a client
    behind. *)
Lemma connect_installs_hook (E : Env) (this : Module) :
  DBG_CONNECTION E = true ->
  transport (final (connect E this)) = Some traced_transport /\
  client (final (connect E this)) = Some {| _connected := false |}.
Proof.
  intros Hd. unfold connect, hookPacketTransport. rewrite Hd.
  run_body; split; reflexivity.
Qed.

(** ** Attachment *)

(** C2: on a context whose tab client is set, [attachTab] issues no
    protocol call at all: it throws a [ReferenceError] on [response] before
    [attachThread] is reached. *)
Theorem attachTab_attached_example :
  attachTab plain_env traced_module (VStr "tab2") (Some tab_only_context) =
    (Throw (ReferenceError "response"), Some tab_only_context, []).
Proof. apply attachTab_attached_throws; reflexivity. Qed.

(** C3: on a context whose [tabClient] and [activeThread] are both set,
    [attachCurrentTab] completes normally, issues no protocol call, leaves
    the context as it is and dispatches exactly the four refresh events, in
    the order onThreadDetached, onTabDetached, onTabAttached,
    onThreadAttached, each with the context and [true]. *)
Theorem attachCurrentTab_refresh (this : Module) (c : context) :
  truthy (tabClient c) = true ->
  truthy (activeThread c) = true ->
  completion (attachCurrentTab this (Some c)) = Ok tt /\
  final (attachCurrentTab this (Some c)) = Some c /\
  protocol_calls (trace (attachCurrentTab this (Some c))) = [] /\
  dispatched (trace (attachCurrentTab this (Some c))) =
    [ ("onThreadDetached", [AContext; ABool true]);
      ("onTabDetached", [AContext; ABool true]);
      ("onTabAttached", [AContext; ABool true]);
      ("onThreadAttached", [AContext; ABool true]) ].
Proof.
  intros Ht Ha. rewrite (refresh_branch_trace this c Ht Ha).
  repeat split; reflexivity.
Qed.

Lemma attachCurrentTab_refresh_witness :
  dispatched (trace (attachCurrentTab traced_module (Some attached_context))) =
    [ ("onThreadDetached", [AContext; ABool true]);
      ("onTabDetached", [AContext; ABool true]);
      ("onTabAttached", [AContext; ABool true]);
      ("onThreadAttached", [AContext; ABool true]) ].
Proof.
  exact (proj2 (proj2 (proj2
    (attachCurrentTab_refresh traced_module attached_context
       eq_refl eq_refl)))).
Defined.

(** C5: when the response callback of [attachTab] or of [attachThread]
    receives no client handle, it logs one error line and returns normally:
    nothing is dispatched, no protocol call is issued and the context is
    left as it was. *)
Theorem attach_failure_aborts (this : Module) (response : attachReply)
    (handle : value) (s : option context) :
  truthy handle = false ->
  attachTab_onResponse this response handle s =
    (Ok tt, s, [TraceError_sysout "ERROR: No tab client found!"]) /\
  attachThread_onResponse this response handle s =
    (Ok tt, s,
     [TraceError_sysout
        ("Couldn't attach to thread: " +:+ ToString (error response))]) /\
  dispatched (trace (attachTab_onResponse this response handle s)) = [] /\
  dispatched (trace (attachThread_onResponse this response handle s)) = [] /\
  protocol_calls (trace (attachTab_onResponse this response handle s)) = [] /\
  protocol_calls (trace (attachThread_onResponse this response handle s)) = [].
Proof.
  intros Hf. unfold attachTab_onResponse, attachThread_onResponse.
  rewrite Hf. repeat split; reflexivity.
Qed.

Lemma attach_failure_aborts_witness :
  attachThread_onResponse traced_module no_reply VUndef (Some tab_only_context)
    = (Ok tt, Some tab_only_context,
       [TraceError_sysout "Couldn't attach to thread: wrongState"]).
Proof.
  exact (proj1 (proj2
    (attach_failure_aborts traced_module no_reply VUndef
       (Some tab_only_context) eq_refl))).
Defined.

(** ** Context persistence *)

(** What [destroyContext] leaves in [persistedState]: the two handles under
    their names, every other property as it was. *)
Lemma destroyContext_saves (c : context) (ps : gmap string value) :
  destroyContext (Some c) (Some ps) =
    (Ok tt,
     Some (<["activeThread" := activeThread c]>
             (<["tabClient" := tabClient c]> ps)),
     []).
Proof. reflexivity. Qed.

(** What [initContext] leaves in the context. *)
Lemma initContext_final (this : Module) (ps : gmap string value)
    (c : context) :
  final (initContext this (Some ps) (Some c)) =
    Some {| tabClient := get_prop ps "tabClient";
            activeThread := get_prop ps "activeThread";
            listTabsResponse := listTabsResponse c |}.
Proof.
  unfold initContext.
  set (c' := {| tabClient := get_prop ps "tabClient";
                activeThread := get_prop ps "activeThread";
                listTabsResponse := listTabsResponse c |}).
  unfold bind at 1. unfold bind at 1. simpl.
  destruct (client this) as [cl|]; [|reflexivity].
  destruct (_connected cl); [|reflexivity].
  change (set_activeThread _ (set_tabClient _ c)) with c'.
  pose proof (attachCurrentTab_final this (Some c')) as H.
  unfold final in *.
  destruct (attachCurrentTab this (Some c')) as [[r s'] t]. exact H.
Qed.

(** [initContext] with a [persistedState] that holds both handles. *)
Lemma initContext_restores (this : Module) (ps : gmap string value)
    (fresh : context) :
  truthy (get_prop ps "tabClient") = true ->
  truthy (get_prop ps "activeThread") = true ->
  initContext this (Some ps) (Some fresh) =
    (Ok tt,
     Some {| tabClient := get_prop ps "tabClient";
             activeThread := get_prop ps "activeThread";
             listTabsResponse := listTabsResponse fresh |},
     if is_connected this then refresh_events else []).
Proof.
  intros Ht Ha. unfold initContext, is_connected.
  set (c' := {| tabClient := get_prop ps "tabClient";
                activeThread := get_prop ps "activeThread";
                listTabsResponse := listTabsResponse fresh |}).
  unfold bind at 1. unfold bind at 1. simpl.
  change (set_activeThread _ (set_tabClient _ fresh)) with c'.
  destruct (client this) as [cl|]; [|reflexivity].
  destruct (_connected cl); [|reflexivity].
  rewrite (refresh_branch_trace this c' Ht Ha). reflexivity.
Qed.

(** C4: for a context holding a tab client and an active thread and any
    [persistedState] object, [destroyContext] followed by [initContext] on
    another context with the same [persistedState] completes normally, sets
    that context's [tabClient] and [activeThread] to the very values saved,
    and issues no protocol call. *)
Theorem persist_round_trip (this : Module) (c fresh : context)
    (ps : gmap string value) :
  truthy (tabClient c) = true ->
  truthy (activeThread c) = true ->
  completion (destroyContext (Some c) (Some ps)) = Ok tt /\
  completion
    (initContext this (final (destroyContext (Some c) (Some ps))) (Some fresh))
    = Ok tt /\
  final
    (initContext this (final (destroyContext (Some c) (Some ps))) (Some fresh))
    = Some {| tabClient := tabClient c; activeThread := activeThread c;
              listTabsResponse := listTabsResponse fresh |} /\
  protocol_calls
    (trace (destroyContext (Some c) (Some ps)) ++
     trace (initContext this (final (destroyContext (Some c) (Some ps)))
              (Some fresh)))
    = [].
Proof.
  intros Ht Ha. rewrite destroyContext_saves.
  set (ps' := <["activeThread" := activeThread c]>
                (<["tabClient" := tabClient c]> ps)).
  change (final (Ok tt, Some ps', [])) with (Some ps').
  assert (Htc : get_prop ps' "tabClient" = tabClient c).
  { unfold get_prop, ps'. rewrite lookup_insert_ne by discriminate.
    rewrite lookup_insert_eq. reflexivity. }
  assert (Hat : get_prop ps' "activeThread" = activeThread c).
  { unfold get_prop, ps'. rewrite lookup_insert_eq. reflexivity. }
  rewrite (initContext_restores this ps' fresh) by congruence.
  rewrite Htc, Hat.
  destruct (is_connected this); repeat split; reflexivity.
Qed.

Lemma persist_round_trip_witness :
  final (initContext traced_module
           (final (destroyContext (Some attached_context) (Some ∅)))
           (Some fresh_context))
    = Some {| tabClient := VRef 1%positive; activeThread := VRef 2%positive;
              listTabsResponse := None |}.
Proof.
  exact (proj1 (proj2 (proj2
    (persist_round_trip traced_module attached_context fresh_context ∅
       eq_refl eq_refl)))).
Defined.

Lemma initContext_absent (this : Module) (c : context) :
  final (initContext this None (Some c)) = Some c.
Proof.
  unfold initContext. unfold bind, ret. simpl.
  destruct (client this) as [cl|]; [|reflexivity].
  destruct (_connected cl); [|reflexivity].
  pose proof (attachCurrentTab_final this (Some c)) as H.
  unfold final in H.
  destruct (attachCurrentTab this (Some c)) as [[r s'] t]. exact H.
Qed.

(** C9: for every context and every [persistedState] object,
    [initContext] overwrites [tabClient] and [activeThread] with
    [persistedState]'s properties of those names; with a [persistedState]
    that holds neither, both fields become [undefined].  Only an absent
    [persistedState] leaves the fields alone. *)
Theorem initContext_overwrites (this : Module) (ps : gmap string value)
    (c : context) :
  final (initContext this (Some ps) (Some c)) =
    Some {| tabClient := get_prop ps "tabClient";
            activeThread := get_prop ps "activeThread";
            listTabsResponse := listTabsResponse c |} /\
  final (initContext this (Some ∅) (Some c)) =
    Some {| tabClient := VUndef; activeThread := VUndef;
            listTabsResponse := listTabsResponse c |} /\
  final (initContext this None (Some c)) = Some c.
Proof.
  split; [apply initContext_final|].
  split; [apply initContext_final|].
  apply initContext_absent.
Qed.

(** ** Actor lookup *)

(** C6, as stated, fails: on a context that has cached the listing and has
    no tab client, [getActorId] does not return [undefined]; reading
    [_actor] of the missing tab client throws. *)
Lemma getActorId_no_tabClient_throws :
  completion (getActorId plain_env "consoleActor" (Some listed_context)) =
    Throw (TypeError "cannot read property _actor") /\
  completion (getActorId plain_env "consoleActor" (Some listed_context)) <>
    Ok VUndef.
Proof. split; [reflexivity | discriminate]. Qed.

(** C6, amended: with no listing cached [getActorId] returns [undefined];
    with a listing cached and a [tabClient] that is neither [null] nor
    [undefined] it returns the property [actorName] of the first tab entry
    whose [actor] equals the tab client's actor identifier, and [undefined]
    when no entry matches.  The context is left as it is and no event is
    produced. *)
Theorem getActorId_lookup (E : Env) (actorName : string) (c : context) :
  listTabsResponse c = None \/ non_null (tabClient c) = true ->
  getActorId E actorName (Some c) =
    (Ok match listTabsResponse c with
        | None => VUndef
        | Some r =>
            match first_matching_tab (tabs r)
                    (handle_actor E (tabClient c)) with
            | Some tab => get_prop tab actorName
            | None => VUndef
            end
        end,
     Some c, []).
Proof.
  intros H. unfold getActorId. unfold bind at 1. simpl.
  destruct (listTabsResponse c) as [r|]; [|reflexivity].
  destruct H as [H|H]; [discriminate|].
  unfold bind, read, get_member. simpl.
  destruct (tabClient c) as [| |s|l]; try discriminate; simpl;
    rewrite getActorId_loop_find; reflexivity.
Qed.

Lemma getActorId_lookup_witness :
  getActorId plain_env "consoleActor" (Some attached_context) =
    (Ok (VStr "console2"), Some attached_context, []).
Proof.
  exact (getActorId_lookup plain_env "consoleActor" attached_context
           (or_intror eq_refl)).
Defined.

(** ** Runs of the manager *)

Lemma dispatched_app (t u : list event) :
  dispatched (t ++ u) = (dispatched t ++ dispatched u)%list.
Proof.
  induction t as [|e t IH]; simpl; [reflexivity|].
  destruct e; simpl; rewrite ?IH; reflexivity.
Qed.

Lemma dispatch_count_app (n : string) (t u : list event) :
  dispatch_count n (t ++ u) = dispatch_count n t + dispatch_count n u.
Proof.
  unfold dispatch_count.
  rewrite dispatched_app, List.filter_app, length_app. reflexivity.
Qed.

(** [connect] leaves a client in place, fans nothing out and attaches
    nothing. *)
Lemma connect_trace (E : Env) (this : Module) :
  client (final (connect E this)) = Some {| _connected := false |} /\
  dispatched (trace (connect E this)) = [] /\
  forallb (fun e => negb (is_attachTab_call e)) (trace (connect E this)) = true.
Proof.
  unfold connect, hookPacketTransport. run_body; repeat split; reflexivity.
Qed.

(** [onConnect] opens with its trace line and the fan-out of "onConnect";
    nothing after them is a second "onConnect". *)
Lemma onConnect_trace (this : Module) (s : option context) :
  exists rest,
    trace (onConnect this s) =
      FBTrace_sysout "debuggerClientModule.dispatch; onConnect"
      :: Dispatch "onConnect" [AClient (client this)] :: rest /\
    dispatch_count "onConnect" rest = 0.
Proof.
  unfold onConnect, attachCurrentTab.
  run_body; eexists; split; reflexivity.
Qed.

(** No operation other than the server's greeting fans out "onConnect". *)
Lemma step_no_onConnect (E : Env) (o : op) (s : system) :
  no_reconnect [o] = true ->
  dispatch_count "onConnect" (step E o s).2 = 0.
Proof.
  destruct o; simpl; try discriminate; intros _.
  - unfold shutdown, disconnect. run_body; reflexivity.
  - reflexivity.
  - reflexivity.
  - reflexivity.
  - unfold initContext, attachCurrentTab. destruct restore; run_body; reflexivity.
  - unfold destroyContext. run_body; reflexivity.
  - unfold attachCurrentTab_onListTabs, attachTab, attachThread.
    run_body; reflexivity.
  - unfold attachTab_onResponse, attachThread. run_body; reflexivity.
  - unfold attachThread_onResponse. run_body; reflexivity.
  - unfold attachCurrentTab. run_body; reflexivity.
  - unfold attachTab, attachThread. run_body; reflexivity.
  - unfold attachThread. run_body; reflexivity.
  - unfold getActorId. run_body; reflexivity.
  - unfold transport_onPacket, hooks_onPacket. run_body; reflexivity.
  - unfold transport_onClosed, hooks_onClosed. run_body; reflexivity.
  - unfold transport_do_send, send_hook. run_body; reflexivity.
Qed.

Lemma run_no_onConnect (E : Env) (ops : list op) (s : system) :
  no_reconnect ops = true ->
  dispatch_count "onConnect" (run E ops s).2 = 0.
Proof.
  revert s. induction ops as [|o ops IH]; intros s Hn; [reflexivity|].
  simpl in Hn. apply andb_prop in Hn as [Ho Hops]. simpl.
  pose proof (step_no_onConnect E o s) as H1.
  destruct (step E o s) as [s1 t1]. specialize (IH s1 Hops).
  destruct (run E ops s1) as [s2 t2]. simpl in *.
  rewrite dispatch_count_app, IH, H1; [reflexivity|].
  rewrite Ho. reflexivity.
Qed.

Lemma run_cons_trace (E : Env) (o : op) (ops : list op) (s : system) :
  (run E (o :: ops) s).2 =
    ((step E o s).2 ++ (run E ops (step E o s).1).2)%list.
Proof.
  simpl. destruct (step E o s) as [s1 t1]. simpl.
  destruct (run E ops s1) as [s2 t2]. reflexivity.
Qed.

(** The greeting on a module that has a client runs [onConnect] on the
    connected module. *)
Lemma step_hello_trace (E : Env) (s : system) (cl : DebuggerClient) :
  client (sys_this s) = Some cl ->
  (step E op_hello s).2 =
    trace (onConnect (connected (sys_this s)) (sys_context s)) /\
  client (connected (sys_this s)) = Some {| _connected := true |}.
Proof.
  intros Hc. split.
  - cbn [step]. rewrite Hc. reflexivity.
  - unfold connected. cbn [client]. rewrite Hc. reflexivity.
Qed.

(** C7: in every run that starts with [connect] and the server's greeting
    and sets up no further connection, "onConnect" is fanned out exactly
    once, with the connected client as its argument, and no [attachTab]
    call on the client precedes that fan-out. *)
Theorem onConnect_once_before_attachTab (E : Env) (s : system)
    (ops : list op) :
  no_reconnect ops = true ->
  dispatch_count "onConnect" (run E (op_connect :: op_hello :: ops) s).2 = 1 /\
  exists pre post,
    (run E (op_connect :: op_hello :: ops) s).2 =
      (pre ++ Dispatch "onConnect" [AClient (Some {| _connected := true |})]
           :: post)%list /\
    forallb (fun e => negb (is_attachTab_call e)) pre = true.
Proof.
  intros Hn.
  destruct (connect_trace E (sys_this s)) as (Hcl & Hd & Hf).
  rewrite !run_cons_trace.
  set (s1 := (step E op_connect s).1).
  change (step E op_connect s).2 with (trace (connect E (sys_this s))).
  destruct (step_hello_trace E s1 _ Hcl) as [Hhello Hc1].
  rewrite Hhello.
  destruct (onConnect_trace (connected (sys_this s1)) (sys_context s1))
    as (rest & Ht & Hr).
  rewrite Hc1 in Ht. rewrite Ht.
  pose proof (run_no_onConnect E ops (step E op_hello s1).1 Hn) as Hrun.
  set (t3 := (run E ops (step E op_hello s1).1).2) in *.
  split.
  - rewrite !dispatch_count_app, Hrun.
    change (dispatch_count "onConnect"
              (FBTrace_sysout "debuggerClientModule.dispatch; onConnect"
               :: Dispatch "onConnect" [AClient (Some {| _connected := true |})]
               :: rest))
      with (S (dispatch_count "onConnect" rest)).
    rewrite Hr. unfold dispatch_count. rewrite Hd. reflexivity.
  - exists (trace (connect E (sys_this s)) ++
            [FBTrace_sysout "debuggerClientModule.dispatch; onConnect"])%list,
      (rest ++ t3)%list.
    split.
    + rewrite <- !app_assoc. reflexivity.
    + rewrite forallb_app, Hf. reflexivity.
Qed.

Lemma onConnect_once_before_attachTab_witness :
  dispatch_count "onConnect"
    (run plain_env
       [op_connect; op_hello; op_initContext false;
        op_listTabs_reply two_tabs;
        op_attachTab_reply {| threadActor := VStr "thread1"; error := VUndef |}
          (VRef 1%positive)]
       (initial false)).2 = 1.
Proof.
  exact (proj1 (onConnect_once_before_attachTab plain_env (initial false)
                  [op_initContext false; op_listTabs_reply two_tabs;
                   op_attachTab_reply
                     {| threadActor := VStr "thread1"; error := VUndef |}
                     (VRef 1%positive)]
                  eq_refl)).
Defined.

(** ** Handles in reachable states *)

Lemma truthy_handle_like (v : value) : truthy v = true -> handle_like v = true.
Proof. intros H. unfold handle_like. rewrite H. apply orb_true_r. Qed.

Lemma with_context_handles {A} (s : system) (this : Module)
    (o : result A * option context * list event) :
  handles_invariant s -> keeps_handles o (sys_context s) ->
  handles_invariant (with_context s this o).1.
Proof.
  intros (Hc & Hp) Hk. unfold handles_invariant, with_context, keeps_handles in *.
  simpl. split; [|exact Hp].
  destruct (final o) as [c'|], (sys_context s) as [c|]; try exact I;
    try contradiction.
  destruct Hc as [Ht Ha], Hk as [[Hk1|Hk1] [Hk2|Hk2]];
    rewrite ?Hk1, ?Hk2; auto using truthy_handle_like.
Qed.

Lemma step_handles (E : Env) (o : op) (s : system) :
  handles_invariant s -> handles_invariant (step E o s).1.
Proof.
  intros Hinv.
  destruct o; cbn [step]; try exact Hinv;
    try (destruct (transport (sys_this s)); [|exact Hinv]);
    try (destruct (client (sys_this s)); [|exact Hinv]);
    try (apply with_context_handles; [exact Hinv|];
         unfold onConnect, attachCurrentTab_onListTabs, attachCurrentTab,
           attachTab, attachThread, getActorId, transport_onPacket,
           hooks_onPacket, transport_onClosed, hooks_onClosed,
           transport_do_send, send_hook;
         keeps; fail).
  - (* initContext on the context just created *)
    destruct Hinv as (Hc & Hpt & Hpa).
    unfold handles_invariant, with_context. cbn [fst sys_context sys_persisted].
    split; [|split; assumption].
    destruct restore.
    + rewrite initContext_final. cbn [tabClient activeThread]. split; assumption.
    + rewrite initContext_absent. split; reflexivity.
  - (* destroyContext *)
    destruct Hinv as (Hc & Hpt & Hpa). unfold handles_invariant. simpl.
    split; [exact Hc|].
    destruct (sys_context s) as [c|]; simpl; [|split; assumption].
    destruct Hc as [Ht Ha]. unfold get_prop.
    rewrite lookup_insert_ne by discriminate. rewrite !lookup_insert_eq.
    split; assumption.
  - (* the reply to attachTab *)
    apply with_context_handles; [exact Hinv|].
    unfold attachTab_onResponse, attachThread.
    destruct (truthy tabClient0) eqn:Ht; keeps.
  - (* the reply to attachThread *)
    apply with_context_handles; [exact Hinv|].
    unfold attachThread_onResponse.
    destruct (truthy threadClient) eqn:Ht; keeps.
Qed.

Lemma run_handles (E : Env) (ops : list op) (s : system) :
  handles_invariant s -> handles_invariant (run E ops s).1.
Proof.
  revert s. induction ops as [|o ops IH]; intros s Hinv; simpl; [exact Hinv|].
  pose proof (step_handles E o s Hinv) as H1.
  destruct (step E o s) as [s1 t1]. specialize (IH s1 H1).
  destruct (run E ops s1) as [s2 t2]. exact IH.
Qed.

(** In every state the manager reaches, a handle slot of the open context
    that is not [null] or [undefined] is truthy: "set" and "truthy" say the
    same of [tabClient] and [activeThread]. *)
Lemma reachable_handles_truthy (E : Env) (remote : bool) (ops : list op)
    (c : context) :
  sys_context (run E ops (initial remote)).1 = Some c ->
  truthy (tabClient c) = non_null (tabClient c) /\
  truthy (activeThread c) = non_null (activeThread c).
Proof.
  intros Hc.
  assert (Hi : handles_invariant (initial remote))
    by (repeat split; reflexivity).
  destruct (run_handles E ops (initial remote) Hi) as [H _].
  rewrite Hc in H. destruct H as [Ht Ha]. unfold handle_like in *.
  split.
  - destruct (tabClient c); simpl in *; try reflexivity; exact Ht.
  - destruct (activeThread c); simpl in *; try reflexivity; exact Ha.
Qed.

(** ** Sample runs *)

(** Embedded mode: [connect], the greeting, then a listing with the single
    tab "tab1" selected: [attachTab] is called with "tab1". *)
Example embedded_connect_scenario :
  (run plain_env
     [op_connect; op_initContext false; op_hello; op_listTabs_reply one_tab]
     (initial false)).2 =
    [ DebuggerServer_init; DebuggerServer_addBrowserActors;
      DebuggerServer_connectPipe; new_DebuggerClient;
      client_addListener "tabNavigated"; client_addListener "tabDetached";
      client_connect;
      FBTrace_sysout "debuggerClientModule.dispatch; onConnect";
      Dispatch "onConnect" [AClient (Some {| _connected := true |})];
      client_listTabs; client_attachTab (VStr "tab1") ].
Proof. vm_compute. reflexivity. Qed.

(** The manager reaches a context with a cached listing and no tab
    client. *)
Example listed_context_reached :
  sys_context (run plain_env until_listed (initial false)).1 =
    Some listed_context.
Proof. vm_compute. reflexivity. Qed.

(** The manager reaches a context with a tab client and no active thread;
    attaching again from there stops after [listTabs]. *)
Example tab_only_context_reached :
  sys_context (run plain_env until_thread_failed (initial false)).1 =
    Some tab_only_context /\
  protocol_calls
    (run plain_env [op_attachCurrentTab; op_listTabs_reply two_tabs]
       (run plain_env until_thread_failed (initial false)).1).2 =
    [client_listTabs].
Proof. split; vm_compute; reflexivity. Qed.

(** After a completed attach and a reload the restored context holds the
    same handles, and the reload issued no protocol call: the calls of the
    whole run are those of the first attach. *)
Example reload_keeps_session :
  sys_context (run plain_env until_reloaded (initial false)).1 =
    Some {| tabClient := VRef 1%positive; activeThread := VRef 2%positive;
            listTabsResponse := None |} /\
  protocol_calls (run plain_env until_reloaded (initial false)).2 =
    [ client_listTabs; client_attachTab (VStr "tab2");
      client_attachThread (VStr "thread2") ].
Proof. repeat split; vm_compute; reflexivity. Qed.

(** ** The attach sequence as a whole *)

(** X1: on a context without a tab client, when the module has a client,
    the listing selects an existing tab and the server hands back a tab
    client and a thread client, the attach sequence completes normally: the
    context ends with the listing and both handles, the client was asked,
    in order, for the listing, for the selected tab's actor and for the
    thread actor of the tab reply, the listeners heard "onTabAttached" and
    then "onThreadAttached" (both fresh), the thread was resumed last, and
    attaching again from there is a refresh that asks the client nothing. *)
Theorem attach_sequence_completes (E : Env) (this : Module)
    (cl : DebuggerClient) (c : context) (listing : listTabsReply)
    (tabGrip : gmap string value) (tabReply threadReply : attachReply)
    (tabClient0 : value) (l : loc) :
  client this = Some cl ->
  truthy (tabClient c) = false ->
  tabs listing !! selected listing = Some tabGrip ->
  truthy tabClient0 = true ->
  attach_sequence E this listing tabReply tabClient0 threadReply (VRef l)
    (Some c) =
    (Ok tt,
     Some {| tabClient := tabClient0; activeThread := VRef l;
             listTabsResponse := Some listing |},
     [ client_listTabs;
       client_attachTab (get_prop tabGrip "actor");
       FBTrace_sysout "debuggerClientModule.dispatch; onTabAttached";
       Dispatch "onTabAttached" [AContext; ABool false];
       client_attachThread (threadActor tabReply);
       FBTrace_sysout "debuggerClientModule.dispatch; onThreadAttached";
       Dispatch "onThreadAttached" [AContext; ABool false];
       threadClient_resume (VRef l) ]) /\
  protocol_calls
    (trace (attachCurrentTab this
              (final (attach_sequence E this listing tabReply tabClient0
                        threadReply (VRef l) (Some c))))) = [].
Proof.
  intros Hcl Hc Hsel Htc.
  assert (Hseq :
    attach_sequence E this listing tabReply tabClient0 threadReply (VRef l)
      (Some c) =
    (Ok tt,
     Some {| tabClient := tabClient0; activeThread := VRef l;
             listTabsResponse := Some listing |},
     [ client_listTabs;
       client_attachTab (get_prop tabGrip "actor");
       FBTrace_sysout "debuggerClientModule.dispatch; onTabAttached";
       Dispatch "onTabAttached" [AContext; ABool false];
       client_attachThread (threadActor tabReply);
       FBTrace_sysout "debuggerClientModule.dispatch; onThreadAttached";
       Dispatch "onThreadAttached" [AContext; ABool false];
       threadClient_resume (VRef l) ])).
  { unfold attach_sequence, attachCurrentTab, attachCurrentTab_onListTabs,
      attachTab, attachTab_onResponse, attachThread_onResponse, attachThread,
      dispatch, resume, on_client, bind, read, write, ret, emit.
    simpl. repeat (rewrite ?Hc, ?Hcl, ?Hsel, ?Htc; simpl). reflexivity. }
  split; [exact Hseq|].
  rewrite Hseq. unfold final. simpl.
  rewrite refresh_branch_trace by (simpl; auto). reflexivity.
Qed.

Lemma attach_sequence_completes_witness :
  final (attach_sequence plain_env traced_module two_tabs tab2_reply
           (VRef 1%positive) tab2_reply (VRef 2%positive)
           (Some fresh_context)) = Some attached_context.
Proof.
  exact (f_equal final (proj1
    (attach_sequence_completes plain_env traced_module
       {| _connected := true |} fresh_context two_tabs
       {[ "actor" := VStr "tab2"; "consoleActor" := VStr "console2" ]}
       tab2_reply tab2_reply (VRef 1%positive) 2%positive
       eq_refl eq_refl eq_refl eq_refl))).
Defined.

(** [attachTab] writes no field of the context. *)
Lemma attachTab_final (E : Env) (this : Module) (a : value)
    (s : option context) :
  final (attachTab E this a s) = s.
Proof. unfold attachTab, attachThread. run_body; reflexivity. Qed.

(** X2: the [listTabs] callback caches the listing before it looks at it.
    When the selected index is outside the listing it throws a [TypeError]
    and asks the client nothing; the context keeps its handles and holds
    the new listing all the same. *)
Theorem onListTabs_selected_out_of_range (E : Env) (this : Module)
    (response : listTabsReply) (c : context) :
  length (tabs response) <= selected response ->
  attachCurrentTab_onListTabs E this response (Some c) =
    (Throw (TypeError "tabGrip is undefined"),
     Some {| tabClient := tabClient c; activeThread := activeThread c;
             listTabsResponse := Some response |},
     []).
Proof.
  intros Hle. unfold attachCurrentTab_onListTabs.
  rewrite (lookup_ge_None_2 _ _ Hle). reflexivity.
Qed.

Lemma onListTabs_selected_out_of_range_witness :
  attachCurrentTab_onListTabs plain_env traced_module
    {| tabs := []; selected := 0 |} (Some attached_context) =
    (Throw (TypeError "tabGrip is undefined"),
     Some {| tabClient := VRef 1%positive; activeThread := VRef 2%positive;
             listTabsResponse := Some {| tabs := []; selected := 0 |} |},
     []).
Proof.
  exact (onListTabs_selected_out_of_range plain_env traced_module
           {| tabs := []; selected := 0 |} attached_context (le_n 0)).
Defined.

(** X3: whatever the listing selects and whatever the attach does next, the
    [listTabs] callback leaves the listing on the context and the two
    handles as they were. *)
Theorem onListTabs_caches_listing (E : Env) (this : Module)
    (response : listTabsReply) (c : context) :
  final (attachCurrentTab_onListTabs E this response (Some c)) =
    Some {| tabClient := tabClient c; activeThread := activeThread c;
            listTabsResponse := Some response |}.
Proof.
  unfold attachCurrentTab_onListTabs.
  set (c' := {| tabClient := tabClient c; activeThread := activeThread c;
                listTabsResponse := Some response |}).
  unfold bind at 1. cbn [write].
  change (set_listTabsResponse response c) with c'.
  destruct (tabs response !! selected response) as [g|]; [|reflexivity].
  pose proof (attachTab_final E this (get_prop g "actor") (Some c')) as H.
  unfold final in *.
  destruct (attachTab E this (get_prop g "actor") (Some c')) as [[r s'] t].
  exact H.
Qed.

(** ** Actor lookup, continued *)

Lemma loose_eq_refl (v : value) : loose_eq v v = true.
Proof.
  destruct v; simpl; try reflexivity.
  - apply String.eqb_refl.
  - apply Pos.eqb_refl.
Qed.

(** The loop stops at the first index whose grip matches. *)
Lemma getActorId_loop_at (tabs : list (gmap string value)) (i : nat)
    (g : gmap string value) (id : value) (actorName : string) :
  tabs !! i = Some g ->
  loose_eq (get_prop g "actor") id = true ->
  (forall j g', j < i -> tabs !! j = Some g' ->
                loose_eq (get_prop g' "actor") id = false) ->
  getActorId_loop tabs id actorName = get_prop g actorName.
Proof.
  revert i. induction tabs as [|tab rest IH]; intros i Hi Hm Hbefore.
  - rewrite lookup_nil in Hi. discriminate.
  - destruct i as [|i]; simpl in *.
    + injection Hi as ->. rewrite Hm. reflexivity.
    + rewrite (Hbefore 0 tab ltac:(lia) eq_refl).
      apply (IH i Hi Hm). intros j g' Hj Hl.
      apply (Hbefore (S j) g'); [lia | exact Hl].
Qed.

(** X4: once the listing is cached and the tab client is attached to the
    actor of a tab entry that no earlier entry shares, [getActorId] returns
    that entry's property of the given name ([undefined] when the entry has
    none), produces no event and leaves the context alone. *)
Theorem getActorId_of_attached_tab (E : Env) (actorName : string)
    (c : context) (r : listTabsReply) (i : nat) (g h : gmap string value)
    (l : loc) :
  listTabsResponse c = Some r ->
  tabs r !! i = Some g ->
  tabClient c = VRef l ->
  heap E !! l = Some h ->
  loose_eq (get_prop g "actor") (get_prop h "_actor") = true ->
  (forall j g', j < i -> tabs r !! j = Some g' ->
     loose_eq (get_prop g' "actor") (get_prop h "_actor") = false) ->
  getActorId E actorName (Some c) = (Ok (get_prop g actorName), Some c, []).
Proof.
  intros Hr Hi Hc Hh Hm Hbefore.
  unfold getActorId, bind, read, get_member. simpl.
  rewrite Hr, Hc, Hh. simpl.
  rewrite (getActorId_loop_at (tabs r) i g _ actorName Hi Hm Hbefore).
  reflexivity.
Qed.

Lemma getActorId_of_attached_tab_witness :
  getActorId plain_env "actor" (Some attached_context) =
    (Ok (VStr "tab2"), Some attached_context, []).
Proof.
  assert (Hbefore : forall j (g' : gmap string value),
            j < 1 -> tabs two_tabs !! j = Some g' ->
            loose_eq (get_prop g' "actor")
              (get_prop ({[ "_actor" := VStr "tab2" ]} : gmap string value)
                 "_actor") = false).
  { intros j g' Hj Hl. destruct j as [|j]; [|lia].
    simpl in Hl. injection Hl as <-. reflexivity. }
  exact (getActorId_of_attached_tab plain_env "actor" attached_context
           two_tabs 1
           {[ "actor" := VStr "tab2"; "consoleActor" := VStr "console2" ]}
           {[ "_actor" := VStr "tab2" ]} 1%positive
           eq_refl eq_refl eq_refl eq_refl eq_refl Hbefore).
Defined.

(** X5: [getActorId] only reads: for every context, attached or not, null
    or not, it leaves the context as it was and produces no event; on a
    null context it throws a [TypeError]. *)
Theorem getActorId_reads_only (E : Env) (actorName : string)
    (s : option context) :
  final (getActorId E actorName s) = s /\
  trace (getActorId E actorName s) = [] /\
  completion (getActorId E actorName None) =
    Throw (TypeError "context is null").
Proof.
  repeat split; unfold getActorId; run_body; reflexivity.
Qed.

(** ** Context persistence, continued *)

(** X6: [destroyContext] touches no property of [persistedState] other
    than "tabClient" and "activeThread": what other modules saved there
    stays. *)
Theorem destroyContext_frame (c : context) (ps : gmap string value)
    (k : string) :
  k <> "tabClient" ->
  k <> "activeThread" ->
  (fun ps' : gmap string value => ps' !! k)
    <$> final (destroyContext (Some c) (Some ps)) = Some (ps !! k).
Proof.
  intros Ht Ha. rewrite destroyContext_saves. unfold final. simpl.
  rewrite !lookup_insert_ne by congruence. reflexivity.
Qed.

Lemma destroyContext_frame_witness :
  (fun ps' : gmap string value => ps' !! "scrollTop")
    <$> final (destroyContext (Some attached_context)
                 (Some {[ "scrollTop" := VStr "120" ]})) =
    Some (Some (VStr "120")).
Proof.
  exact (destroyContext_frame attached_context {[ "scrollTop" := VStr "120" ]}
           "scrollTop" ltac:(discriminate) ltac:(discriminate)).
Defined.

(** X7: the last save wins: saving a context into a [persistedState] that
    already holds the handles of another context leaves exactly what saving
    into the original [persistedState] would have left; in particular saving
    the same context twice changes nothing the second time. *)
Theorem destroyContext_last_wins (c1 c2 : context) (ps : gmap string value) :
  final (destroyContext (Some c2)
           (final (destroyContext (Some c1) (Some ps)))) =
    final (destroyContext (Some c2) (Some ps)) /\
  destroyContext (Some c1) (final (destroyContext (Some c1) (Some ps))) =
    (Ok tt, final (destroyContext (Some c1) (Some ps)), []).
Proof.
  rewrite !destroyContext_saves. unfold final. simpl.
  rewrite !destroyContext_saves. simpl. split.
  - f_equal. apply map_eq. intros k.
    destruct (decide (k = "activeThread")) as [->|Ha];
      [rewrite !lookup_insert_eq; reflexivity|].
    destruct (decide (k = "tabClient")) as [->|Ht].
    + rewrite !(lookup_insert_ne _ "activeThread") by discriminate.
      rewrite !lookup_insert_eq. reflexivity.
    + rewrite !lookup_insert_ne by congruence. reflexivity.
  - f_equal. f_equal. f_equal. apply map_eq. intros k.
    destruct (decide (k = "activeThread")) as [->|Ha];
      [rewrite !lookup_insert_eq; reflexivity|].
    destruct (decide (k = "tabClient")) as [->|Ht].
    + rewrite !(lookup_insert_ne _ "activeThread") by discriminate.
      rewrite !lookup_insert_eq. reflexivity.
    + rewrite !lookup_insert_ne by congruence. reflexivity.
Qed.

(** X8: [initContext] on a context never fails.  It leaves the restored
    fields on the context and, while the client is not connected, produces
    no event; once connected it either dispatches the four refresh events
    (both restored handles set) or asks the client for the listing, and
    nothing else. *)
Theorem initContext_outcome (this : Module)
    (persistedState : option (gmap string value)) (c : context) :
  initContext this persistedState (Some c) =
    (Ok tt, Some (restored persistedState c),
     if is_connected this then
       if truthy (tabClient (restored persistedState c))
          && truthy (activeThread (restored persistedState c))
       then refresh_events
       else [client_listTabs]
     else []).
Proof.
  unfold initContext, is_connected, attachCurrentTab, restored.
  destruct persistedState as [p|]; destruct c as [tc at_ lr];
    destruct (client this) as [cl|] eqn:Hcl; simpl;
    try reflexivity;
    unfold bind, read, write, ret, dispatch, on_client, emit; simpl;
    destruct (_connected cl); simpl; try reflexivity.
  - destruct (truthy (get_prop p "tabClient")) eqn:H1; simpl;
      [destruct (truthy (get_prop p "activeThread")) eqn:H2; simpl|];
      rewrite ?H1, ?H2; simpl; rewrite ?Hcl; reflexivity.
  - destruct (truthy tc) eqn:H1; simpl;
      [destruct (truthy at_) eqn:H2; simpl|];
      rewrite ?H1, ?H2; simpl; rewrite ?Hcl; reflexivity.
Qed.

(** X9: a greeting that arrives while no context is open is announced to
    the listeners and then stops on a [TypeError]: nothing is asked of the
    client, and no context appears. *)
Theorem hello_without_context (E : Env) (s : system) (cl : DebuggerClient) :
  client (sys_this s) = Some cl ->
  sys_context s = None ->
  completion (onConnect (connected (sys_this s)) (sys_context s)) =
    Throw (TypeError "context is null") /\
  (step E op_hello s).2 =
    [ FBTrace_sysout "debuggerClientModule.dispatch; onConnect";
      Dispatch "onConnect" [AClient (Some {| _connected := true |})] ] /\
  sys_context (step E op_hello s).1 = None.
Proof.
  intros Hcl Hc. cbn [step]. rewrite Hcl, Hc. unfold connected.
  rewrite Hcl. repeat split; reflexivity.
Qed.

Lemma hello_without_context_witness :
  (step plain_env op_hello (step plain_env op_connect (initial false)).1).2 =
    [ FBTrace_sysout "debuggerClientModule.dispatch; onConnect";
      Dispatch "onConnect" [AClient (Some {| _connected := true |})] ].
Proof.
  exact (proj1 (proj2
    (hello_without_context plain_env
       (step plain_env op_connect (initial false)).1
       {| _connected := false |} eq_refl eq_refl))).
Defined.

(** ** Orders the traces keep *)

Lemma follows_weaken {A} (ok : option A -> A -> bool) (p : option A)
    (l : list A) :
  (forall q x, ok None x = true -> ok q x = true) ->
  follows ok None l = true -> follows ok p l = true.
Proof.
  intros Hmono. destruct l as [|x l]; [reflexivity|]. simpl.
  intros H. apply andb_prop in H as [H1 H2].
  rewrite (Hmono p x H1), H2. reflexivity.
Qed.

Lemma follows_app {A} (ok : option A -> A -> bool) (p : option A)
    (l1 l2 : list A) :
  (forall q x, ok None x = true -> ok q x = true) ->
  follows ok p l1 = true -> follows ok None l2 = true ->
  follows ok p (l1 ++ l2) = true.
Proof.
  intros Hmono. revert p. induction l1 as [|x l1 IH]; intros p H1 H2.
  - apply follows_weaken; assumption.
  - simpl in *. apply andb_prop in H1 as [Hx H1].
    rewrite Hx. simpl. apply IH; assumption.
Qed.

Lemma after_trace_line_mono (q : option event) (e : event) :
  after_trace_line None e = true -> after_trace_line q e = true.
Proof. destruct e; simpl; try reflexivity. discriminate. Qed.

Lemma after_thread_detached_mono (q : option (string * list arg))
    (d : string * list arg) :
  after_thread_detached None d = true -> after_thread_detached q d = true.
Proof.
  unfold after_thread_detached.
  destruct (String.eqb d.1 "onTabDetached"); [discriminate | reflexivity].
Qed.

Lemma step_after_trace_line (E : Env) (o : op) (s : system) :
  follows after_trace_line None (step E o s).2 = true.
Proof.
  destruct o; cbn [step];
    unfold initializeUI, shutdown, connect, disconnect, hookPacketTransport,
      with_this, with_context, onConnect, onDisconnect, onTabNavigated,
      onTabDetached, initContext, destroyContext, attachCurrentTab_onListTabs,
      attachTab_onResponse, attachThread_onResponse, attachCurrentTab,
      attachTab, attachThread, getActorId, transport_onPacket, hooks_onPacket,
      transport_onClosed, hooks_onClosed, transport_do_send, send_hook;
    run_body; reflexivity.
Qed.

(** X10: in every run of the manager, every event fanned out to the
    listeners comes right after the trace line that [dispatch] writes for
    it, naming the same event. *)
Theorem dispatch_after_trace_line (E : Env) (ops : list op) (s : system) :
  follows after_trace_line None (run E ops s).2 = true.
Proof.
  revert s. induction ops as [|o ops IH]; intros s; [reflexivity|].
  rewrite run_cons_trace.
  apply follows_app;
    [exact after_trace_line_mono | apply step_after_trace_line | apply IH].
Qed.

Lemma step_detach_paired (E : Env) (o : op) (s : system) :
  follows after_thread_detached None (dispatched (step E o s).2) = true.
Proof.
  destruct o; cbn [step];
    try (unfold with_context, onTabDetached, dispatch, bind, emit, trace;
         cbn [snd dispatched app follows fst];
         unfold after_thread_detached; cbn [fst snd String.eqb Ascii.eqb
           Bool.eqb andb];
         rewrite bool_decide_true by reflexivity; reflexivity);
    unfold initializeUI, shutdown, connect, disconnect, hookPacketTransport,
      with_this, with_context, onConnect, onDisconnect, onTabNavigated,
      initContext, destroyContext, attachCurrentTab_onListTabs,
      attachTab_onResponse, attachThread_onResponse, attachCurrentTab,
      attachTab, attachThread, getActorId, transport_onPacket, hooks_onPacket,
      transport_onClosed, hooks_onClosed, transport_do_send, send_hook;
    run_body; reflexivity.
Qed.

(** X11: in every run of the manager, the listeners hear "onTabDetached"
    only right after "onThreadDetached" with the same arguments, whether
    the pair comes from the client's tab-detached notification or from a
    refresh. *)
Theorem tab_detached_after_thread_detached (E : Env) (ops : list op)
    (s : system) :
  follows after_thread_detached None (dispatched (run E ops s).2) = true.
Proof.
  revert s. induction ops as [|o ops IH]; intros s; [reflexivity|].
  rewrite run_cons_trace, dispatched_app.
  apply follows_app;
    [exact after_thread_detached_mono | apply step_detach_paired | apply IH].
Qed.

(** The two orders are real constraints: a fan-out without its trace line,
    and a lone "onTabDetached", are rejected. *)
Example orders_reject :
  follows after_trace_line None [Dispatch "onConnect" []] = false /\
  follows after_thread_detached None
    [("onTabAttached", [AContext; ABool true]);
     ("onTabDetached", [AContext; ABool true])] = false.
Proof. split; reflexivity. Qed.

(** ** Connection, continued *)

(** X12: [connect] never fails, whatever the module held before.  It
    starts the local server and opens a pipe when embedded, opens a socket
    to the configured host and port (and leaves the local server alone)
    when remote; either way it then creates the client, registers the two
    client listeners and asks the client to connect last.  It leaves a new,
    not yet connected client, and a transport that carries the tracing
    hooks exactly when connection tracing is on. *)
Theorem connect_outcome (E : Env) (this : Module) :
  connect E this =
    (Ok tt,
     {| client := Some {| _connected := false |};
        isRemoteDebugger := isRemoteDebugger this;
        transport :=
          Some {| transport_hooks :=
                    if DBG_CONNECTION E then TracingHooks else ClientHooks;
                  send_wrapped := DBG_CONNECTION E |} |},
     ((if isRemoteDebugger this
       then [debuggerSocketConnect (remoteHost E) (remotePort E)]
       else [DebuggerServer_init; DebuggerServer_addBrowserActors;
             DebuggerServer_connectPipe]) ++
      [new_DebuggerClient; client_addListener "tabNavigated";
       client_addListener "tabDetached"; client_connect])%list).
Proof.
  unfold connect, hookPacketTransport, on_client_now.
  destruct (isRemoteDebugger this) eqn:Hr, (DBG_CONNECTION E) eqn:Hd;
    unfold bind, get, put, emit, ret, on_client; simpl; rewrite ?Hr;
    reflexivity.
Qed.

(** [disconnect] writes no field of the module. *)
Lemma disconnect_final (this : Module) : final (disconnect this) = this.
Proof. unfold disconnect. run_body; reflexivity. Qed.

(** X13: [disconnect] removes from the client exactly the listeners that
    [connect] registered, in the same order, and leaves the module's
    [client] and [transport] in place; on a module that never connected it
    throws a [TypeError] and calls nothing. *)
Theorem disconnect_balances_connect (E : Env) (this : Module)
    (remote : bool) (t : option Transport) :
  removed_listeners (trace (disconnect (final (connect E this)))) =
    added_listeners (trace (connect E this)) /\
  final (disconnect (final (connect E this))) = final (connect E this) /\
  disconnect {| client := None; isRemoteDebugger := remote; transport := t |} =
    (Throw (TypeError "this.client is null"),
     {| client := None; isRemoteDebugger := remote; transport := t |}, []).
Proof.
  rewrite connect_outcome. split; [|split; [apply disconnect_final|reflexivity]].
  unfold final, trace. simpl.
  destruct (isRemoteDebugger this); reflexivity.
Qed.

(** ** What the manager does not do *)

Lemma step_without_client (E : Env) (o : op) (s : system) :
  is_connect o = false ->
  client (sys_this s) = None -> transport (sys_this s) = None ->
  List.filter is_client_event (step E o s).2 = [] /\
  client (sys_this (step E o s).1) = None /\
  transport (sys_this (step E o s).1) = None.
Proof.
  intros Ho Hc Ht.
  destruct s as [[cl rem tr] ctx ps]. simpl in Hc, Ht. subst cl tr.
  destruct o; try discriminate; cbn [step sys_this client transport];
    unfold shutdown, disconnect, with_this, with_context, onDisconnect,
      onTabNavigated, onTabDetached, initContext, destroyContext,
      attachCurrentTab_onListTabs, attachTab_onResponse,
      attachThread_onResponse, attachCurrentTab, attachTab, attachThread,
      getActorId;
    run_body; repeat split; reflexivity.
Qed.

Lemma run_without_client (E : Env) (ops : list op) (s : system) :
  forallb (fun o => negb (is_connect o)) ops = true ->
  client (sys_this s) = None -> transport (sys_this s) = None ->
  List.filter is_client_event (run E ops s).2 = [].
Proof.
  revert s. induction ops as [|o ops IH]; intros s Hops Hc Ht; [reflexivity|].
  simpl in Hops. apply andb_prop in Hops as [Ho Hops].
  apply negb_true_iff in Ho.
  destruct (step_without_client E o s Ho Hc Ht) as (H1 & Hc1 & Ht1).
  rewrite run_cons_trace, List.filter_app, H1.
  apply IH; assumption.
Qed.

(** X14: as long as [connect] has not run, nothing the manager is asked
    to do reaches the protocol client: no listing, attach, listener or
    close call, no packet and no close notification, whatever contexts are
    opened and whatever replies or packets arrive. *)
Theorem no_client_no_calls (E : Env) (remote : bool) (ops : list op) :
  forallb (fun o => negb (is_connect o)) ops = true ->
  List.filter is_client_event (run E ops (initial remote)).2 = [].
Proof. intros Hops. apply run_without_client; [exact Hops | reflexivity..]. Qed.

Lemma no_client_no_calls_witness :
  List.filter is_client_event
    (run plain_env
       [op_initContext false; op_attachCurrentTab; op_hello;
        op_listTabs_reply two_tabs; op_packet paused_packet; op_disconnect]
       (initial false)).2 = [].
Proof.
  exact (no_client_no_calls plain_env false
           [op_initContext false; op_attachCurrentTab; op_hello;
            op_listTabs_reply two_tabs; op_packet paused_packet;
            op_disconnect] eq_refl).
Defined.

(** X15: only opening a context and the two attach replies store handles:
    every other operation, the client's tab-detached notification and the
    disconnection included, leaves [tabClient] and [activeThread] of the
    open context as they were. *)
Theorem handles_kept (E : Env) (o : op) (s : system) :
  stores_handle o = false ->
  tabClient <$> sys_context (step E o s).1 = tabClient <$> sys_context s /\
  activeThread <$> sys_context (step E o s).1 = activeThread <$> sys_context s.
Proof.
  intros Ho.
  destruct o; try discriminate; cbn [step];
    try (destruct (client (sys_this s)); [|split; reflexivity]);
    try (destruct (transport (sys_this s)); [|split; reflexivity]);
    unfold with_this, with_context, onConnect, onDisconnect, onTabNavigated,
      onTabDetached, attachCurrentTab_onListTabs, attachCurrentTab,
      attachTab, attachThread, getActorId, transport_onPacket, hooks_onPacket,
      transport_onClosed, hooks_onClosed, transport_do_send, send_hook;
    cbn [fst sys_context];
    run_body; split; first [reflexivity | congruence].
Qed.

Lemma handles_kept_witness :
  tabClient <$>
    sys_context
      (step plain_env (op_tabDetached [])
         (run plain_env until_reloaded (initial false)).1).1 =
  Some (VRef 1%positive).
Proof.
  exact (proj1 (handles_kept plain_env (op_tabDetached [])
                  (run plain_env until_reloaded (initial false)).1 eq_refl)).
Defined.

(** ** Packet tracing over a stream of packets *)

Lemma is_newGlobal_loose_eq (packet : gmap string value) :
  loose_eq (get_prop packet "type") (VStr "newGlobal") = is_newGlobal packet.
Proof.
  unfold is_newGlobal.
  destruct (loose_eq (get_prop packet "type") (VStr "newGlobal")) eqn:Heq.
  - apply loose_eq_newGlobal in Heq. rewrite bool_decide_true by exact Heq.
    reflexivity.
  - rewrite bool_decide_false; [reflexivity|].
    intros Hty. apply loose_eq_newGlobal in Hty. congruence.
Qed.

Lemma onPacket_under_hook (S : Type) (t : Transport) (self : Module)
    (cl : DebuggerClient) (p : gmap string value) (s : S) :
  transport_hooks t = TracingHooks -> client self = Some cl ->
  transport_onPacket t self p s =
    (Ok tt, s,
     if is_newGlobal p then []
     else [TraceConn_sysout "PACKET RECEIVED; " p; client_onPacket p]).
Proof.
  intros Hh Hc. unfold transport_onPacket, hooks_onPacket.
  rewrite Hh, is_newGlobal_loose_eq.
  destruct (is_newGlobal p); [reflexivity|].
  unfold bind, emit, on_client. rewrite Hc. reflexivity.
Qed.

Lemma turns_cons {S} (m : M S unit) (ms : list (M S unit)) (s : S) :
  (turns (m :: ms) s).1 = (turns ms (final (m s))).1 /\
  (turns (m :: ms) s).2 = (trace (m s) ++ (turns ms (final (m s))).2)%list.
Proof.
  simpl. destruct (m s) as [[r s1] t1]. unfold final, trace. simpl.
  destruct (turns ms s1) as [s2 t2]. split; reflexivity.
Qed.

Lemma received_app (t u : list event) :
  received (t ++ u) = (received t ++ received u)%list.
Proof.
  induction t as [|e t IH]; simpl; [reflexivity|].
  destruct e; simpl; rewrite ?IH; reflexivity.
Qed.

Lemma traced_app (t u : list event) :
  traced (t ++ u) = (traced t ++ traced u)%list.
Proof.
  induction t as [|e t IH]; simpl; [reflexivity|].
  destruct e; simpl; rewrite ?IH; reflexivity.
Qed.

Lemma sent_app (t u : list event) :
  sent (t ++ u) = (sent t ++ sent u)%list.
Proof.
  induction t as [|e t IH]; simpl; [reflexivity|].
  destruct e; simpl; rewrite ?IH; reflexivity.
Qed.

(** X16: under the tracing hook, with the client in place, a stream of
    inbound packets reaches the client's packet handler without its
    "newGlobal" packets and otherwise unchanged and in order; the same
    packets, and no others, are written to the trace.  Without the hook the
    client receives every packet. *)
Theorem traced_delivery (S : Type) (t : Transport) (self : Module)
    (cl : DebuggerClient) (packets : list (gmap string value)) (s : S) :
  transport_hooks t = TracingHooks ->
  client self = Some cl ->
  (deliver t self packets s).1 = s /\
  received (deliver t self packets s).2 =
    List.filter (fun p => negb (is_newGlobal p)) packets /\
  traced (deliver t self packets s).2 =
    List.filter (fun p => negb (is_newGlobal p)) packets /\
  received
    (deliver {| transport_hooks := ClientHooks; send_wrapped := send_wrapped t |}
       self packets s).2 = packets.
Proof.
  intros Hh Hc. unfold deliver.
  induction packets as [|p packets (IH1 & IH2 & IH3 & IH4)];
    [repeat split; reflexivity|].
  cbn [List.map].
  destruct (turns_cons (transport_onPacket t self p)
              (List.map (transport_onPacket t self) packets) s) as [E1 E2].
  destruct (turns_cons
              (transport_onPacket
                 {| transport_hooks := ClientHooks;
                    send_wrapped := send_wrapped t |} self p)
              (List.map
                 (transport_onPacket
                    {| transport_hooks := ClientHooks;
                       send_wrapped := send_wrapped t |} self) packets) s)
    as [_ E3].
  rewrite E1, E2, E3.
  rewrite (onPacket_under_hook S t self cl p s Hh Hc).
  change (transport_onPacket
            {| transport_hooks := ClientHooks;
               send_wrapped := send_wrapped t |} self p s)
    with (Ok tt, s, [client_onPacket p]).
  unfold final, trace. cbn [fst snd].
  rewrite !received_app, traced_app, IH2, IH3, IH4. cbn [List.filter].
  split; [exact IH1|].
  destruct (is_newGlobal p); repeat split; reflexivity.
Qed.

Lemma traced_delivery_witness :
  received
    (deliver traced_transport traced_module
       [paused_packet; newGlobal_packet; paused_packet] tt).2 =
    [paused_packet; paused_packet].
Proof.
  exact (proj1 (proj2
    (traced_delivery unit traced_transport traced_module
       {| _connected := true |}
       [paused_packet; newGlobal_packet; paused_packet] tt
       eq_refl eq_refl))).
Defined.

(** X17: the replacement of [transport.send] is transparent: with or
    without it, every outbound packet goes out on the wire, unchanged and
    in order; with it, each packet is also written to the trace. *)
Theorem send_hook_transparent (S : Type) (t : Transport) (self : Module)
    (packets : list (gmap string value)) (s : S) :
  (send_all t self packets s).1 = s /\
  sent (send_all t self packets s).2 = packets /\
  traced (send_all t self packets s).2 =
    if send_wrapped t then packets else [].
Proof.
  unfold send_all.
  induction packets as [|p packets (IH1 & IH2 & IH3)].
  - destruct (send_wrapped t); repeat split; reflexivity.
  - cbn [List.map].
    destruct (turns_cons (transport_do_send t self p)
                (List.map (transport_do_send t self) packets) s) as [E1 E2].
    rewrite E1, E2.
    assert (Hp : transport_do_send t self p s =
                 (Ok tt, s,
                  if send_wrapped t
                  then [TraceConn_sysout "PACKET SEND " p; transport_send p]
                  else [transport_send p])).
    { unfold transport_do_send, send_hook.
      destruct (send_wrapped t); reflexivity. }
    rewrite Hp. unfold final, trace. cbn [fst snd].
    rewrite sent_app, traced_app, IH2, IH3.
    split; [exact IH1|].
    destruct (send_wrapped t); split; reflexivity.
Qed.

(** ** Greetings *)

Lemma step_keeps_client (E : Env) (o : op) (s : system) :
  is_Some (client (sys_this s)) -> is_Some (client (sys_this (step E o s).1)).
Proof.
  intros [cl Hcl].
  destruct o; cbn [step]; rewrite ?Hcl;
    try (destruct (transport (sys_this s)));
    unfold with_this, with_context, initializeUI, shutdown; cbn [fst sys_this];
    rewrite ?connect_outcome, ?disconnect_final; unfold final, connected;
    cbn [fst snd client]; rewrite ?Hcl; eauto.
Qed.

Lemma step_onConnect_count (E : Env) (o : op) (s : system) :
  is_Some (client (sys_this s)) ->
  dispatch_count "onConnect" (step E o s).2 =
    match o with op_hello => 1 | _ => 0 end.
Proof.
  intros [cl Hcl].
  destruct o; try (apply step_no_onConnect; reflexivity).
  - cbn [step]. unfold with_this, initializeUI. cbn [snd].
    rewrite connect_outcome. unfold trace. cbn [snd].
    destruct (isRemoteDebugger (sys_this s)); reflexivity.
  - cbn [step]. rewrite Hcl. unfold with_context. cbn [snd].
    destruct (onConnect_trace (connected (sys_this s)) (sys_context s))
      as (rest & Ht & Hr).
    rewrite Ht.
    change (dispatch_count "onConnect"
              (FBTrace_sysout "debuggerClientModule.dispatch; onConnect"
               :: Dispatch "onConnect" [AClient (client (connected (sys_this s)))]
               :: rest))
      with (S (dispatch_count "onConnect" rest)).
    rewrite Hr. reflexivity.
Qed.

Lemma run_onConnect_count (E : Env) (ops : list op) (s : system) :
  is_Some (client (sys_this s)) ->
  dispatch_count "onConnect" (run E ops s).2 = count_hello ops.
Proof.
  revert s. induction ops as [|o ops IH]; intros s Hs; [reflexivity|].
  rewrite run_cons_trace, dispatch_count_app.
  rewrite (step_onConnect_count E o s Hs).
  rewrite (IH _ (step_keeps_client E o s Hs)).
  destruct o; reflexivity.
Qed.

(** X18: once [connect] has run, the listeners hear "onConnect" exactly
    once for every greeting of the server, whatever else happens in
    between, a second [connect] included. *)
Theorem onConnect_once_per_greeting (E : Env) (s : system) (ops : list op) :
  dispatch_count "onConnect" (run E (op_connect :: ops) s).2 =
    count_hello ops.
Proof.
  rewrite run_cons_trace, dispatch_count_app.
  assert (Hc : is_Some (client (sys_this (step E op_connect s).1))).
  { cbn [step]. unfold with_this, initializeUI. cbn [fst sys_this].
    rewrite connect_outcome. unfold final. cbn [fst snd client]. eauto. }
  rewrite (run_onConnect_count E ops _ Hc).
  cbn [step]. unfold with_this, initializeUI. cbn [snd].
  rewrite connect_outcome. unfold trace. cbn [snd].
  destruct (isRemoteDebugger (sys_this s)); reflexivity.
Qed.

(** ** Handle slots *)

(** X20: in every state the manager reaches from its initial state, the
    four handle slots, [tabClient] and [activeThread] of the open context
    and of [persistedState], hold nothing ([undefined] or [null]) or a
    truthy value: the manager never stores a falsy handle, so its tests
    "is the handle set" cannot be fooled by an empty string. *)
Theorem handle_slots_stay_handle_like (E : Env) (remote : bool)
    (ops : list op) :
  handles_invariant (run E ops (initial remote)).1.
Proof. apply run_handles. repeat split; reflexivity. Qed.

(** ** SelectionController *)

Section SelectionControllerFacts.

Context {listener : Type}.
Variable FBL_remove : list listener -> listener -> list listener.

(** What [cleanUp] relies on: removing the first element of the list from
    the list leaves the rest. *)
Hypothesis remove_head :
  forall (x : listener) (l : list listener), FBL_remove (x :: l) x = l.

Lemma sc_cleanUp_all (fuel : nat) (listeners : list listener) :
  length listeners <= fuel ->
  sc_cleanUp FBL_remove fuel listeners =
    Some ([], List.map App_removeListener listeners).
Proof.
  revert listeners.
  induction fuel as [|fuel IH]; intros [|x l] Hlen; simpl in *;
    try reflexivity; try lia.
  rewrite remove_head, IH by lia. reflexivity.
Qed.

Lemma sc_addAll_app (ls listeners : list listener) :
  sc_addAll ls listeners =
    ((listeners ++ ls)%list, List.map App_addListener ls).
Proof.
  revert listeners. induction ls as [|l ls IH]; intros listeners; simpl.
  - rewrite app_nil_r. reflexivity.
  - rewrite IH, <- app_assoc. reflexivity.
Qed.

(** X19: a test that registers listeners through [addListener] passes each
    one on to the application's controller and keeps them in registration
    order; [cleanUp] then ends, after one round per registered listener,
    with an empty list, having asked the application's controller to remove
    every one of them once, in registration order, a listener registered
    twice being removed twice. *)
Theorem sc_cleanUp_unregisters_all (ls : list listener) :
  sc_addAll ls [] = (ls, List.map App_addListener ls) /\
  sc_cleanUp FBL_remove (length ls) (sc_addAll ls []).1 =
    Some ([], List.map App_removeListener ls).
Proof.
  rewrite sc_addAll_app. simpl. split; [reflexivity|].
  apply sc_cleanUp_all. lia.
Qed.

End SelectionControllerFacts.

Lemma remove_first_head (x : nat) (l : list nat) : remove_first (x :: l) x = l.
Proof. simpl. rewrite Nat.eqb_refl. reflexivity. Qed.

Lemma sc_cleanUp_unregisters_all_witness :
  sc_cleanUp remove_first 3 (sc_addAll [4; 7; 4] []).1 =
    Some ([], [App_removeListener 4; App_removeListener 7;
               App_removeListener 4]).
Proof.
  exact (proj2 (sc_cleanUp_unregisters_all remove_first remove_first_head
                  [4; 7; 4])).
Defined.

(** ** The thread-attach invariant *)

Lemma onConnect_thread_kept (this : Module) : thread_kept (onConnect this).
Proof.
  intros c. unfold onConnect, attachCurrentTab. run_body; reflexivity.
Qed.

Lemma attachCurrentTab_thread_kept (this : Module) :
  thread_kept (attachCurrentTab this).
Proof. intros c. unfold attachCurrentTab. run_body; reflexivity. Qed.

Lemma attachTab_thread_kept (E : Env) (this : Module) (a : value) :
  thread_kept (attachTab E this a).
Proof. intros c. unfold attachTab, attachThread. run_body; reflexivity. Qed.

Lemma attachThread_thread_kept (this : Module) (a : value) :
  thread_kept (attachThread this a).
Proof. intros c. unfold attachThread. run_body; reflexivity. Qed.

Lemma getActorId_thread_kept (E : Env) (n : string) :
  thread_kept (getActorId E n).
Proof.
  intros c. unfold getActorId. run_body; first [reflexivity | congruence].
Qed.

Lemma onListTabs_thread_kept (E : Env) (this : Module) (r : listTabsReply) :
  thread_kept (attachCurrentTab_onListTabs E this r).
Proof.
  intros c. unfold attachCurrentTab_onListTabs, attachTab, attachThread.
  run_body; reflexivity.
Qed.

Lemma attachTab_onResponse_thread_kept (this : Module) (r : attachReply)
    (tc : value) :
  thread_kept (attachTab_onResponse this r tc).
Proof.
  intros c. unfold attachTab_onResponse, attachThread. run_body; reflexivity.
Qed.

(** The [attachThread] callback without a thread client stores nothing. *)
Lemma attachThread_onResponse_thread_kept (this : Module) (r : attachReply)
    (thc : value) :
  truthy thc = false -> thread_kept (attachThread_onResponse this r thc).
Proof.
  intros Hf c. unfold attachThread_onResponse. rewrite Hf. reflexivity.
Qed.

(** With a thread client, it stores the thread client in [activeThread],
    whether or not the thread can then be resumed. *)
Lemma attachThread_onResponse_stores (this : Module) (r : attachReply)
    (thc : value) (c : context) :
  truthy thc = true ->
  final (attachThread_onResponse this r thc (Some c)) =
    Some (set_activeThread thc c).
Proof.
  intros Ht. unfold attachThread_onResponse. rewrite Ht.
  destruct thc; try discriminate; reflexivity.
Qed.

Lemma on_context_kept {A} (b : browser) (this : Module) (k : nat)
    (m : M (option context) A) :
  thread_kept m -> marks_agree b ->
  marks_agree (on_context b this k false m).1.
Proof.
  intros Hkeep [[Hc Hp] Hb]. unfold on_context.
  destruct (b_contexts b !! k) as [c|] eqn:Hk;
    [|split; [split|]; assumption].
  specialize (Hkeep c). cbn [fst].
  destruct (final (m (Some c))) as [c'|]; simpl in Hkeep; [|discriminate].
  injection Hkeep as Hat.
  pose proof (lookup_lt_Some _ _ _ Hk) as Hlt.
  split; [split|]; cbn [b_contexts b_completed b_persisted
                         b_persisted_completed].
  - intros k' c0 Hl. destruct (decide (k' = k)) as [->|Hne].
    + rewrite list_lookup_insert_eq in Hl by exact Hlt.
      injection Hl as <-. rewrite Hat. apply Hc. exact Hk.
    + rewrite list_lookup_insert_ne in Hl by congruence. apply Hc. exact Hl.
  - exact Hp.
  - intros k' Hin. cbn [b_contexts b_completed]. rewrite length_insert.
    apply Hb. exact Hin.
Qed.

Lemma on_context_completes {A} (b : browser) (this : Module) (k : nat)
    (m : M (option context) A) :
  (forall c, exists c', final (m (Some c)) = Some c' /\
                        non_null (activeThread c') = true) ->
  marks_agree b ->
  marks_agree (on_context b this k true m).1.
Proof.
  intros Hstore [[Hc Hp] Hb]. unfold on_context.
  destruct (b_contexts b !! k) as [c|] eqn:Hk;
    [|split; [split|]; assumption].
  destruct (Hstore c) as (c' & Hfin & Hnn). cbn [fst]. rewrite Hfin.
  pose proof (lookup_lt_Some _ _ _ Hk) as Hlt.
  split; [split|]; cbn [b_contexts b_completed b_persisted
                         b_persisted_completed].
  - intros k' c0 Hl. destruct (decide (k' = k)) as [->|Hne].
    + rewrite list_lookup_insert_eq in Hl by exact Hlt.
      injection Hl as <-. split; [|intros _; exact Hnn].
      intros _. apply elem_of_union. left. apply elem_of_singleton.
      reflexivity.
    + rewrite list_lookup_insert_ne in Hl by congruence.
      rewrite (Hc k' c0 Hl), elem_of_union, elem_of_singleton.
      intuition congruence.
  - exact Hp.
  - intros k' Hin. cbn [b_contexts b_completed] in *. rewrite length_insert.
    apply elem_of_union in Hin as [Hin|Hin].
    + apply elem_of_singleton in Hin. subst k'. exact Hlt.
    + apply Hb. exact Hin.
Qed.

Lemma initContext_marks (E : Env) (restore : bool) (b : browser) :
  marks_agree b -> marks_agree (b_step E (act_initContext restore) b).1.
Proof.
  intros [[Hc Hp] Hb]. cbn [b_step fst].
  set (k := length (b_contexts b)).
  assert (Hfin :
    default fresh_context
      (final (initContext (b_this b)
                (if restore then Some (b_persisted b) else None)
                (Some fresh_context))) =
    if restore
    then {| tabClient := get_prop (b_persisted b) "tabClient";
            activeThread := get_prop (b_persisted b) "activeThread";
            listTabsResponse := None |}
    else fresh_context).
  { destruct restore; [rewrite initContext_final | rewrite initContext_absent];
      reflexivity. }
  rewrite Hfin.
  assert (Hfresh : k ∉ b_completed b).
  { intros Hin. apply Hb in Hin. unfold k in Hin. lia. }
  split; [split|]; cbn [b_contexts b_completed b_persisted
                         b_persisted_completed].
  - intros k' c0 Hl.
    destruct (decide (k' < k)) as [Hlt|Hge].
    + rewrite lookup_app_l in Hl by exact Hlt.
      rewrite (Hc k' c0 Hl).
      destruct (restore && b_persisted_completed b); [|reflexivity].
      split; [intros Hin; apply elem_of_union; right; exact Hin|].
      intros Hin.
      apply elem_of_union in Hin as [Hin|Hin]; [|exact Hin].
      apply elem_of_singleton in Hin. lia.
    + assert (Hk' : k' = k).
      { apply lookup_lt_Some in Hl. rewrite length_app in Hl. simpl in Hl.
        unfold k in *. lia. }
      subst k'. unfold k in Hl.
      rewrite lookup_app_r in Hl by lia. rewrite Nat.sub_diag in Hl.
      simpl in Hl. injection Hl as <-.
      destruct restore; cbn [andb activeThread fresh_context].
      * rewrite Hp. destruct (b_persisted_completed b).
        -- split; [|reflexivity]. intros _. apply elem_of_union. left.
           apply elem_of_singleton. reflexivity.
        -- split; [discriminate | intros Hin; contradiction].
      * cbn [non_null]. split; [discriminate | intros Hin; contradiction].
  - exact Hp.
  - intros k' Hin. cbn [b_contexts b_completed] in *.
    rewrite length_app. simpl.
    destruct (restore && b_persisted_completed b).
    + apply elem_of_union in Hin as [Hin|Hin].
      * apply elem_of_singleton in Hin. unfold k in Hin. lia.
      * apply Hb in Hin. lia.
    + apply Hb in Hin. lia.
Qed.

Lemma destroyContext_marks (E : Env) (k : nat) (b : browser) :
  marks_agree b -> marks_agree (b_step E (act_destroyContext k) b).1.
Proof.
  intros [[Hc Hp] Hb]. cbn [b_step].
  destruct (b_contexts b !! k) as [c|] eqn:Hk;
    [|split; [split|]; assumption].
  rewrite destroyContext_saves.
  split; [split|].
  - exact Hc.
  - cbn [fst b_persisted b_persisted_completed]. unfold final. simpl.
    unfold get_prop. rewrite lookup_insert_eq. simpl.
    rewrite (Hc k c Hk). symmetry. apply bool_decide_eq_true.
  - exact Hb.
Qed.

Lemma b_step_marks (E : Env) (a : action) (b : browser) :
  marks_agree b -> marks_agree (b_step E a b).1.
Proof.
  intros Hinv.
  destruct a as [ | | | | args | args | restore | [k|] | k | i r | k | k a
                | k a | k n | p | st | p ].
  - exact Hinv.
  - cbn [b_step]. destruct (client (b_this b)); [|exact Hinv].
    destruct (b_current b) as [k|]; [|exact Hinv].
    apply on_context_kept; [apply onConnect_thread_kept | exact Hinv].
  - exact Hinv.
  - exact Hinv.
  - exact Hinv.
  - exact Hinv.
  - apply initContext_marks. exact Hinv.
  - cbn [b_step]. destruct (b_contexts b !! k); exact Hinv.
  - exact Hinv.
  - apply destroyContext_marks. exact Hinv.
  - cbn [b_step].
    destruct (b_pending b !! i) as [[k|k|k]|]; destruct r as [lr|ar h];
      try exact Hinv.
    + apply (on_context_kept (forget i b));
        [apply onListTabs_thread_kept | exact Hinv].
    + apply (on_context_kept (forget i b));
        [apply attachTab_onResponse_thread_kept | exact Hinv].
    + destruct (truthy h) eqn:Ht.
      * apply (on_context_completes (forget i b)); [|exact Hinv].
        intros c. exists (set_activeThread h c). split.
        -- apply attachThread_onResponse_stores. exact Ht.
        -- apply truthy_non_null. exact Ht.
      * apply (on_context_kept (forget i b));
          [apply attachThread_onResponse_thread_kept; exact Ht | exact Hinv].
  - apply on_context_kept; [apply attachCurrentTab_thread_kept | exact Hinv].
  - apply on_context_kept; [apply attachTab_thread_kept | exact Hinv].
  - apply on_context_kept; [apply attachThread_thread_kept | exact Hinv].
  - apply on_context_kept; [apply getActorId_thread_kept | exact Hinv].
  - cbn [b_step]. destruct (transport (b_this b)); exact Hinv.
  - cbn [b_step]. destruct (transport (b_this b)); exact Hinv.
  - cbn [b_step]. destruct (transport (b_this b)); exact Hinv.
Qed.

Lemma b_run_marks (E : Env) (acts : list action) (b : browser) :
  marks_agree b -> marks_agree (b_run E acts b).1.
Proof.
  revert b. induction acts as [|a acts IH]; intros b Hinv; [exact Hinv|].
  simpl. pose proof (b_step_marks E a b Hinv) as H1.
  destruct (b_step E a b) as [b1 t1]. specialize (IH b1 H1).
  destruct (b_run E acts b1) as [b2 t2]. exact IH.
Qed.

(** C8: in every state the manager reaches from its initial state, by any
    sequence of its operations, context openings, saves and replies of the
    server, each reply running on the context its callback closed over,
    [activeThread] of every context object is set exactly when the
    thread-attach step has completed for that context's session: the
    server handed a thread client to the context's [attachThread]
    callback, or the context was restored from a [persistedState] saved
    from a context for which the step had completed.  The same holds of the
    pair saved in [persistedState]. *)
Theorem activeThread_set_iff_completed (E : Env) (remote : bool)
    (acts : list action) :
  thread_attach_invariant (b_run E acts (b_initial remote)).1.
Proof.
  apply (b_run_marks E acts (b_initial remote)).
  split; [split|].
  - intros k c Hl. apply lookup_lt_Some in Hl. simpl in Hl. lia.
  - split; discriminate.
  - intros k Hin. apply not_elem_of_empty in Hin. contradiction.
Qed.

(** A reply that comes after a reload lands on the context whose call it
    answers: the destroyed context gets the thread client and its mark, the
    context opened in between keeps an empty [activeThread], no mark, and
    the tab client it was restored with. *)
Example late_reply_lands_on_old_context :
  b_contexts (b_run plain_env reload_before_thread_reply (b_initial false)).1 =
    [ {| tabClient := VRef 1%positive; activeThread := VRef 2%positive;
         listTabsResponse := Some two_tabs |};
      {| tabClient := VRef 1%positive; activeThread := VUndef;
         listTabsResponse := None |} ] /\
  b_current (b_run plain_env reload_before_thread_reply (b_initial false)).1 =
    Some 1 /\
  bool_decide
    (0 ∈ b_completed
           (b_run plain_env reload_before_thread_reply (b_initial false)).1) =
    true /\
  bool_decide
    (1 ∈ b_completed
           (b_run plain_env reload_before_thread_reply (b_initial false)).1) =
    false /\
  b_pending (b_run plain_env reload_before_thread_reply (b_initial false)).1 =
    [cb_listTabs 1].
Proof. repeat split; vm_compute; reflexivity. Qed.

(** The marks are set by what the server hands over, not by what the
    callback does with it: a state in which the server has handed over a
    thread client and [activeThread] is still empty breaks the
    invariant. *)
Example mark_without_handle_breaks_invariant :
  ~ thread_attach_invariant
      {| b_this := traced_module; b_contexts := [tab_only_context];
         b_current := Some 0; b_persisted := ∅; b_pending := [];
         b_completed := {[0]}; b_persisted_completed := false |}.
Proof.
  intros [Hc _]. specialize (Hc 0 tab_only_context eq_refl).
  cbn [b_completed] in Hc. destruct Hc as [_ Hc].
  assert (H : non_null (activeThread tab_only_context) = true)
    by (apply Hc, elem_of_singleton; reflexivity).
  discriminate.
Qed.
